(** * Account model of the account service (service/models.py)

    A shallow embedding of [Account.serialize], [Account.deserialize],
    [Account.find_by_name] and of the [PersistentBase] lifecycle methods,
    with the properties the specification states about them. *)

From Stdlib Require Import ZArith String Ascii List Lia Bool Permutation.
From stdpp Require Import base option gmap strings list fin_maps pretty.

#[local] Set Warnings "-register-all".

Local Open Scope string_scope.
Local Open Scope Z_scope.

(** ** Python values

    The values a request body decoded from JSON is made of, plus
    [datetime.date].  A [dict] has string keys, as a JSON object has. *)

Record date := mkdate { year : Z; month : Z; day : Z }.

Inductive PyVal :=
| PNone
| PBool (b : bool)
| PInt (n : Z)
| PStr (s : string)
| PList (l : list PyVal)
| PDict (m : gmap string PyVal)
| PDate (d : date).

(** Python's truth value testing, [bool(v)]. *)
Definition truthy (v : PyVal) : bool :=
  match v with
  | PNone => false
  | PBool b => b
  | PInt n => negb (n =? 0)
  | PStr s => negb (String.eqb s "")
  | PList l => match l with [] => false | _ => true end
  | PDict m => negb (bool_decide (m = ∅))
  | PDate _ => true
  end.

(** ** [datetime.date]

    A [date] object always holds a valid calendar date: the constructor
    checks its arguments ([valid_date]). *)

Definition is_leap (y : Z) : bool :=
  (y mod 4 =? 0) && (negb (y mod 100 =? 0) || (y mod 400 =? 0)).

Definition days_in_month (y m : Z) : Z :=
  if (m =? 2) && is_leap y then 29
  else nth (Z.to_nat m) [0; 31; 28; 31; 30; 31; 30; 31; 31; 30; 31; 30; 31] 0.

Definition valid_date (d : date) : bool :=
  (1 <=? year d) && (year d <=? 9999) &&
  (1 <=? month d) && (month d <=? 12) &&
  (1 <=? day d) && (day d <=? days_in_month (year d) (month d)).

(** Why [date.fromisoformat] raises [ValueError]. *)
Inductive DateError :=
| InvalidIsoformat (s : string)
| YearOutOfRange (y : Z)
| MonthOutOfRange
| DayOutOfRange.

Definition digit_char (k : Z) : ascii := ascii_of_nat (Z.to_nat (48 + k mod 10)).

Definition digit_val (c : ascii) : option Z :=
  let n := Z.of_nat (nat_of_ascii c) in
  if (48 <=? n) && (n <=? 57) then Some (n - 48) else None.

(** The [w] low decimal digits of [n], most significant first: what
    ["%0wd"] prints for [0 <= n < 10^w]. *)
Fixpoint zfill (w : nat) (n : Z) : string :=
  match w with
  | O => EmptyString
  | S w' => String (digit_char (n / 10 ^ Z.of_nat w')) (zfill w' n)
  end.

(** [date.isoformat()]: ["%04d-%02d-%02d" % (year, month, day)]. *)
Definition isoformat (d : date) : string :=
  zfill 4 (year d) ++ "-" ++ zfill 2 (month d) ++ "-" ++ zfill 2 (day d).

(** [parse_digits]: a run of decimal digits read as a number. *)
Fixpoint parse_digits (cs : list ascii) (acc : Z) : option Z :=
  match cs with
  | [] => Some acc
  | c :: cs' =>
      match digit_val c with
      | Some v => parse_digits cs' (acc * 10 + v)
      | None => None
      end
  end.

(** [date.fromisoformat] on a [str] (CPython 3.7 to 3.10): the string has
    exactly ten characters, [YYYY-MM-DD], and the three numbers pass the
    checks of the [date] constructor. *)
Definition date_fromisoformat_str (s : string) : DateError + date :=
  match list_ascii_of_string s with
  | [y1; y2; y3; y4; s1; m1; m2; s2; d1; d2] =>
      match parse_digits [y1; y2; y3; y4] 0,
            parse_digits [m1; m2] 0,
            parse_digits [d1; d2] 0 with
      | Some y, Some m, Some d =>
          if negb (Ascii.eqb s1 "-" && Ascii.eqb s2 "-") then inl (InvalidIsoformat s)
          else if negb ((1 <=? y) && (y <=? 9999)) then inl (YearOutOfRange y)
          else if negb ((1 <=? m) && (m <=? 12)) then inl MonthOutOfRange
          else if negb ((1 <=? d) && (d <=? days_in_month y m)) then inl DayOutOfRange
          else inr (mkdate y m d)
      | _, _, _ => inl (InvalidIsoformat s)
      end
  | _ => inl (InvalidIsoformat s)
  end.

(** ** Exceptions

    [DataValidationError] is raised [from error]: it keeps the exception it
    translates as its cause. *)

Inductive StorageFailure :=
| NotNullViolation (column : string)
| TypeMismatch (column : string)
| StringTooLong (column : string)
| UniqueViolation (key : Z)
| NotPersisted
| Deleted
| StaleData.

Inductive Exn :=
| KeyError (key : string)
| TypeError (msg : string)
| AttributeError (msg : string)
| ValueError (why : DateError)
| StorageError (why : StorageFailure)
| DataValidationError (msg : string) (cause : Exn).

(** [type(v).__name__]. *)
Definition type_name (v : PyVal) : string :=
  match v with
  | PNone => "NoneType"
  | PBool _ => "bool"
  | PInt _ => "int"
  | PStr _ => "str"
  | PList _ => "list"
  | PDict _ => "dict"
  | PDate _ => "datetime.date"
  end.

(** [data[key]] with a [str] key.  Only a [dict] can be indexed by a
    string; the messages are CPython's. *)
Definition getitem (data : PyVal) (key : string) : Exn + PyVal :=
  match data with
  | PDict m =>
      match m !! key with
      | Some v => inr v
      | None => inl (KeyError key)
      end
  | PStr _ => inl (TypeError "string indices must be integers")
  | PList _ => inl (TypeError "list indices must be integers or slices, not str")
  | _ => inl (TypeError ("'" ++ type_name data ++ "' object is not subscriptable"))
  end.

(** [data.get(key)]: [None] when the key is absent. *)
Definition dict_get (data : PyVal) (key : string) : Exn + PyVal :=
  match data with
  | PDict m => inr (default PNone (m !! key))
  | _ => inl (AttributeError
                ("'" ++ type_name data ++ "' object has no attribute 'get'"))
  end.

(** [date.fromisoformat(v)]: a [TypeError] unless [v] is a [str]. *)
Definition date_fromisoformat (v : PyVal) : Exn + date :=
  match v with
  | PStr s =>
      match date_fromisoformat_str s with
      | inr d => inr d
      | inl why => inl (ValueError why)
      end
  | _ => inl (TypeError "fromisoformat: argument must be str")
  end.

(** ** The Account entity

    The attributes of an instance.  [name], [email], [address] and
    [phone_number] hold whatever was assigned to them ([deserialize] assigns
    the request's values unchecked); [id] is set by the storage and
    [date_joined] only ever receives a [date]. *)

Record Account := mkAccount {
  id : option Z;
  name : PyVal;
  email : PyVal;
  address : PyVal;
  phone_number : PyVal;
  date_joined : option date
}.

(** [Account()]: no attribute set. *)
Definition Account_new : Account := mkAccount None PNone PNone PNone PNone None.

(** *** Methods that mutate [self]

    A method body runs on the instance it mutates and either returns or
    raises; the assignments made before a [raise] stay.  [get_self] is the
    [return self] of [deserialize]. *)

Definition Stm (A : Type) : Type := Account -> (Exn + A) * Account.

#[global] Instance Stm_ret : MRet Stm := fun A x self => (inr x, self).
#[global] Instance Stm_bind : MBind Stm := fun A B k m self =>
  match m self with
  | (inr x, self') => k x self'
  | (inl e, self') => (inl e, self')
  end.

Definition raise {A} (e : Exn) : Stm A := fun self => (inl e, self).
Definition eval {A} (r : Exn + A) : Stm A :=
  match r with inr x => mret x | inl e => raise e end.
Definition get_self : Stm Account := fun self => (inr self, self).
Definition try_except {A} (body : Stm A) (handler : Exn -> Stm A) : Stm A :=
  fun self =>
    match body self with
    | (inr x, self') => (inr x, self')
    | (inl e, self') => handler e self'
    end.

Definition set_name (v : PyVal) : Stm unit := fun self =>
  (inr tt, mkAccount (id self) v (email self) (address self)
                     (phone_number self) (date_joined self)).
Definition set_email (v : PyVal) : Stm unit := fun self =>
  (inr tt, mkAccount (id self) (name self) v (address self)
                     (phone_number self) (date_joined self)).
Definition set_address (v : PyVal) : Stm unit := fun self =>
  (inr tt, mkAccount (id self) (name self) (email self) v
                     (phone_number self) (date_joined self)).
Definition set_phone_number (v : PyVal) : Stm unit := fun self =>
  (inr tt, mkAccount (id self) (name self) (email self) (address self)
                     v (date_joined self)).
Definition set_date_joined (d : date) : Stm unit := fun self =>
  (inr tt, mkAccount (id self) (name self) (email self) (address self)
                     (phone_number self) (Some d)).

(** [Account.serialize].  A [date] always tests true, so that
    [self.date_joined.isoformat() if self.date_joined else None] tells a
    set field from an unset one. *)
Definition serialize (self : Account) : gmap string PyVal :=
  <["id" := match id self with Some i => PInt i | None => PNone end]>
  (<["name" := name self]>
  (<["email" := email self]>
  (<["address" := address self]>
  (<["phone_number" := phone_number self]>
  (<["date_joined" := match date_joined self with
                      | Some d => PStr (isoformat d)
                      | None => PNone
                      end]> ∅))))).

Section Clock.

(** [date.today()]: the date the process clock shows during the call. *)
Variable today : date.

(** [Account.deserialize]. *)
Definition deserialize (data : PyVal) : Stm Account :=
  try_except
    (v ← eval (getitem data "name"); set_name v;;
     v ← eval (getitem data "email"); set_email v;;
     v ← eval (getitem data "address"); set_address v;;
     v ← eval (dict_get data "phone_number"); set_phone_number v;;
     date_joined ← eval (dict_get data "date_joined");
     d ← (if truthy date_joined
          then eval (date_fromisoformat date_joined)
          else mret today);
     set_date_joined d;;
     get_self)
    (fun error =>
       match error with
       | KeyError args0 =>
           raise (DataValidationError ("Invalid Account: missing " ++ args0) error)
       | TypeError msg =>
           raise (DataValidationError
                    ("Invalid Account: body of request contained bad or no data - "
                     ++ msg) error)
       | _ => raise error
       end).

End Clock.

(** ** Storage

    The [account] table behind [db.session], with the sequence that feeds
    its primary key, the records handed to [logger] and the process clock.
    Every lifecycle method commits at once, so the session's pending work
    never outlives a call: it is passed from [session_add], [session_delete]
    or [session_dirty] to [session_commit] instead of being stored. *)

Record Row := mkRow {
  row_id : Z;
  row_name : string;
  row_email : string;
  row_address : string;
  row_phone_number : option string;
  row_date_joined : date
}.

Inductive LogArg :=
| ArgAccount (name : PyVal) (id : option Z)
| ArgInt (n : Z)
| ArgStr (s : string).

Record LogRecord := mkLog { log_msg : string; log_args : list LogArg }.

Record World := mkWorld {
  table : list Row;
  sequence : Z;
  clock : date;
  log : list LogRecord
}.

(** The state before the first request: empty table, sequence at 1. *)
Definition World_init (now : date) : World := mkWorld [] 1 now [].

(** A storage call returns a value and the next state, or raises. *)
Definition DB (A : Type) : Type := World -> Exn + (A * World).

#[global] Instance DB_ret : MRet DB := fun A x w => inr (x, w).
#[global] Instance DB_bind : MBind DB := fun A B k m w =>
  match m w with
  | inr (x, w') => k x w'
  | inl e => inl e
  end.

Definition db_raise {A} (why : StorageFailure) : DB A :=
  fun _ => inl (StorageError why).
Definition db_eval {A} (r : StorageFailure + A) : DB A :=
  match r with inr x => mret x | inl why => db_raise why end.

(** [logger.info(msg, *args)]. *)
Definition logger_info (msg : string) (args : list LogArg) : DB unit :=
  fun w => inr (tt, mkWorld (table w) (sequence w) (clock w)
                            (log w ++ [mkLog msg args])).

(** [Account.__repr__]: the values [<Account {name} id=[{id}]>] shows. *)
Definition repr (self : Account) : LogArg := ArgAccount (name self) (id self).

(** The instance loaded from a row. *)
Definition account_of_row (r : Row) : Account :=
  mkAccount (Some (row_id r)) (PStr (row_name r)) (PStr (row_email r))
            (PStr (row_address r))
            (match row_phone_number r with Some s => PStr s | None => PNone end)
            (Some (row_date_joined r)).


(** *** The database

    What the repository does not decide is left to the database in use: how
    the driver and the column type turn a Python value that is not [None]
    into the text a [db.String(size)] column holds (or refuse it), and in
    which order the table returns its rows after a write, the queries of
    the repository having no ORDER BY. *)

Class Database := {
  adapt : string -> nat -> PyVal -> StorageFailure + string;
  heap_order : list Row -> list Row;
  heap_order_perm : forall rows, Permutation (heap_order rows) rows
}.

(** *** Instances and the session

    An instance carries, beside its attributes, the state the session keeps
    for it: [Transient] as the constructor returns it, [Persistent] once an
    INSERT gave it an identity or a query loaded it, [Detached] once the
    deletion of its row was committed.  The key is the primary key the row
    was stored or loaded under. *)

Inductive InstanceState :=
| Transient
| Persistent (key : Z)
| Detached (key : Z).

Record Instance := mkInstance { attrs : Account; sa_state : InstanceState }.

(** [Account(...)]. *)
Definition transient (a : Account) : Instance := mkInstance a Transient.

(** The instance a query returns for a row. *)
Definition instance_of_row (r : Row) : Instance :=
  mkInstance (account_of_row r) (Persistent (row_id r)).

(** [nullable=False]. *)
Definition not_null {A} (column : string) (v : option A) : StorageFailure + A :=
  match v with
  | Some x => inr x
  | None => inl (NotNullViolation column)
  end.

Definition has_key (pk : Z) (rows : list Row) : bool :=
  existsb (fun r => row_id r =? pk) rows.

(** An instance is persisted when the session holds it as persistent and
    the table holds the row of its key. *)
Definition persisted (self : Instance) (w : World) : bool :=
  match sa_state self with
  | Persistent k => has_key k (table w)
  | _ => false
  end.

(** What the session has to flush at the next commit: the instance added,
    the pending attribute changes of a persistent instance, the instance
    marked for deletion, or nothing. *)
Inductive UnitOfWork :=
| Insert (self : Instance)
| Update (key : Z) (self : Instance)
| Delete (key : Z) (self : Instance)
| Clean (self : Instance).

(** The attribute changes of [self], which the session tracks for a
    persistent instance only. *)
Definition session_dirty (self : Instance) : UnitOfWork :=
  match sa_state self with
  | Persistent k => Update k self
  | _ => Clean self
  end.

(** [db.session.add(self)]: a transient instance becomes pending; a
    persistent one is in the session already; one whose deletion was
    committed is refused. *)
Definition session_add (self : Instance) : DB UnitOfWork :=
  match sa_state self with
  | Transient => mret (Insert self)
  | Persistent _ => mret (session_dirty self)
  | Detached _ => db_raise Deleted
  end.

(** [db.session.delete(self)]: refuses an instance that has no identity;
    one that has a key is marked for deletion, also when its row is gone. *)
Definition session_delete (self : Instance) : DB UnitOfWork :=
  match sa_state self with
  | Transient => db_raise NotPersisted
  | Persistent k | Detached k => mret (Delete k self)
  end.

(** [nextval] of the primary-key sequence. *)
Definition nextval : DB Z :=
  fun w => inr (sequence w, mkWorld (table w) (sequence w + 1) (clock w) (log w)).

(** [date.today()]. *)
Definition date_today : DB date := fun w => inr (clock w, w).

(** Whether an attribute still is the text (or NULL) its row holds. *)
Definition same_text (v : PyVal) (stored : option string) : bool :=
  match v, stored with
  | PNone, None => true
  | PStr s, Some t => String.eqb s t
  | _, _ => false
  end.

Definition date_eqb (d1 d2 : date) : bool :=
  (year d1 =? year d2) && (month d1 =? month d2) && (day d1 =? day d2).

(** Whether the attributes are those loaded from the row. *)
Definition unchanged (a : Account) (r : Row) : bool :=
  match id a, date_joined a with
  | Some i, Some d =>
      (i =? row_id r) && same_text (name a) (Some (row_name r)) &&
      same_text (email a) (Some (row_email r)) &&
      same_text (address a) (Some (row_address r)) &&
      same_text (phone_number a) (row_phone_number r) &&
      date_eqb d (row_date_joined r)
  | _, _ => false
  end.

Section WithDatabase.

Context `{Database}.

(** The value bound to a [db.String(size)] column; [None] is NULL. *)
Definition bind_string (column : string) (size : nat) (v : PyVal)
    : StorageFailure + option string :=
  match v with
  | PNone => inr None
  | _ => match adapt column size v with
         | inr s => inr (Some s)
         | inl why => inl why
         end
  end.

(** The value bound in an UPDATE, which sets the changed columns only. *)
Definition bind_changed (column : string) (size : nat) (stored : option string)
    (v : PyVal) : StorageFailure + option string :=
  if same_text v stored then inr stored else bind_string column size v.

Definition insert_row (r : Row) : DB unit :=
  fun w =>
    if has_key (row_id r) (table w) then inl (StorageError (UniqueViolation (row_id r)))
    else inr (tt, mkWorld (heap_order (table w ++ [r])) (sequence w) (clock w) (log w)).

(** UPDATE ... WHERE id = ?: the row stored under [key] becomes [r], whose
    key must be free if it is another one. *)
Definition update_row (key : Z) (r : Row) : DB unit :=
  fun w =>
    if negb (row_id r =? key) && has_key (row_id r) (table w)
    then inl (StorageError (UniqueViolation (row_id r)))
    else inr (tt, mkWorld (heap_order (map (fun r' => if row_id r' =? key then r else r')
                                           (table w)))
                          (sequence w) (clock w) (log w)).

(** DELETE ... WHERE id = ?. *)
Definition delete_rows (pk : Z) : DB unit :=
  fun w => inr (tt, mkWorld (heap_order (List.filter (fun r => negb (row_id r =? pk))
                                                     (table w)))
                            (sequence w) (clock w) (log w)).

(** INSERT: the columns are bound, a missing [id] is drawn from the
    sequence, a missing [date_joined] takes the column default
    [date.today], and the primary key must be new.  The instance is then
    persistent, and its attributes are reloaded from its row. *)
Definition flush_insert (a : Account) : DB Instance :=
  n ← db_eval (bind_string "name" 64 (name a));
  e ← db_eval (bind_string "email" 64 (email a));
  ad ← db_eval (bind_string "address" 256 (address a));
  ph ← db_eval (bind_string "phone_number" 32 (phone_number a));
  dj ← match date_joined a with Some d => mret d | None => date_today end;
  pk ← match id a with Some i => mret i | None => nextval end;
  n ← db_eval (not_null "name" n);
  e ← db_eval (not_null "email" e);
  ad ← db_eval (not_null "address" ad);
  let r := mkRow pk n e ad ph dj in
  insert_row r;;
  mret (instance_of_row r).

(** The flush of a persistent instance: nothing is sent when no attribute
    differs from the row; otherwise the changed columns are bound (no
    default applies) and the row is updated.  The instance is reloaded. *)
Definition flush_update (key : Z) (a : Account) : DB Instance :=
  fun w =>
    match List.find (fun r => row_id r =? key) (table w) with
    | None => inl (StorageError StaleData)
    | Some stored =>
        if unchanged a stored then inr (instance_of_row stored, w)
        else
          (n ← db_eval (bind_changed "name" 64 (Some (row_name stored)) (name a));
           e ← db_eval (bind_changed "email" 64 (Some (row_email stored)) (email a));
           ad ← db_eval (bind_changed "address" 256 (Some (row_address stored))
                           (address a));
           ph ← db_eval (bind_changed "phone_number" 32 (row_phone_number stored)
                           (phone_number a));
           pk ← db_eval (not_null "id" (id a));
           n ← db_eval (not_null "name" n);
           e ← db_eval (not_null "email" e);
           ad ← db_eval (not_null "address" ad);
           dj ← db_eval (not_null "date_joined" (date_joined a));
           let r := mkRow pk n e ad ph dj in
           update_row key r;;
           mret (instance_of_row r)) w
    end.

(** The flush of a deletion; the instance keeps its attributes and is
    detached. *)
Definition flush_delete (key : Z) (self : Instance) : DB Instance :=
  delete_rows key;;
  mret (mkInstance (attrs self) (Detached key)).

(** [db.session.commit()]: flushes the pending work and returns the
    instance it concerned, as it is after the commit. *)
Definition session_commit (pending : UnitOfWork) : DB Instance :=
  match pending with
  | Insert self => flush_insert (attrs self)
  | Update key self => flush_update key (attrs self)
  | Delete key self => flush_delete key self
  | Clean self => mret self
  end.

End WithDatabase.

(** [cls.query.all()]. *)
Definition query_all : DB (list Account) :=
  fun w => inr (map account_of_row (table w), w).

(** [cls.query.get(by_id)]. *)
Definition query_get (by_id : Z) : DB (option Account) :=
  fun w => inr (account_of_row <$> List.find (fun r => row_id r =? by_id) (table w), w).

(** [cls.query.filter(criterion).all()]. *)
Definition query_filter_all (criterion : Row -> bool) : DB (list Account) :=
  fun w => inr (map account_of_row (List.filter criterion (table w)), w).


(** *** PersistentBase *)

Module PersistentBase.

Section WithDatabase.

Context `{Database}.

(** [create]: returns the instance as it is after the call. *)
Definition create (self : Instance) : DB Instance :=
  logger_info "Creating %s" [repr (attrs self)];;
  pending ← session_add self;
  session_commit pending.

(** [update]: nothing is added or deleted before the commit. *)
Definition update (self : Instance) : DB Instance :=
  logger_info "Updating %s" [repr (attrs self)];;
  session_commit (session_dirty self).

Definition delete (self : Instance) : DB Instance :=
  logger_info "Deleting %s" [repr (attrs self)];;
  pending ← session_delete self;
  session_commit pending.

End WithDatabase.

Definition all : DB (list Account) :=
  logger_info "Fetching all records" [];;
  query_all.

Definition find (by_id : Z) : DB (option Account) :=
  logger_info "Finding record with id: %s" [ArgInt by_id];;
  query_get by_id.

End PersistentBase.


(** [Account.find_by_name], for a text [name]: [cls.name == name] compares
    the column with the given text, character by character. *)
Definition find_by_name (n : string) : DB (list Account) :=
  logger_info "Querying for name: %s" [ArgStr n];;
  query_filter_all (fun r => String.eqb (row_name r) n).

(** ** Vocabulary of the properties *)

(** The first required key a mapping lacks, in the order [deserialize]
    reads them. *)
Definition first_missing (m : gmap string PyVal) : option string :=
  List.find (fun k => bool_decide (m !! k = None)) ["name"; "email"; "address"].

(** The instance [deserialize] leaves behind once the three required keys
    and [phone_number] have been read. *)
Definition assigned (self : Account) (m : gmap string PyVal)
    (vn ve va : PyVal) (dj : option date) : Account :=
  mkAccount (id self) vn ve va (default PNone (m !! "phone_number")) dj.

(** No two rows share a primary key. *)
Definition keys_unique (w : World) : Prop := NoDup (map row_id (table w)).

(** Values to run the model on. *)
Definition nov3 : date := mkdate 2026 11 3.
Definition ann : gmap string PyVal :=
  <["name" := PStr "Ann"]> (<["email" := PStr "ann@example.com"]>
  (<["address" := PStr "1 Main St"]> ∅)).
Definition ann_joined (v : PyVal) : gmap string PyVal :=
  <["date_joined" := v]> ann.
Definition ann_account : Account :=
  mkAccount None (PStr "Ann") (PStr "ann@example.com") (PStr "1 Main St")
            (PStr "555-0100") None.
Definition ann_row (pk : Z) : Row :=
  mkRow pk "Ann" "ann@example.com" "1 Main St" None nov3.
Definition bob_row (pk : Z) : Row :=
  mkRow pk "Bob" "bob@example.com" "2 High St" (Some "555-0199") nov3.
Definition three_rows : World :=
  mkWorld [ann_row 1; bob_row 2; ann_row 3] 4 nov3 [].

Ltac unfold_stm :=
  unfold deserialize, try_except, mbind, Stm_bind, mret, Stm_ret, eval, raise,
    get_self, set_name, set_email, set_address, set_phone_number,
    set_date_joined, getitem, dict_get.

Ltac unfold_db :=
  unfold PersistentBase.create, PersistentBase.update, PersistentBase.delete,
    PersistentBase.find, PersistentBase.all, find_by_name, session_add,
    session_delete, session_commit, flush_insert, flush_delete, delete_rows,
    query_get, query_all, query_filter_all, logger_info, mbind, DB_bind, mret,
    DB_ret.

Ltac leb_true :=
  symmetry; apply andb_true_iff; split; apply Z.leb_le; lia.

(** ** Vocabulary of the storage properties *)

(** One call of the model layer: a lifecycle method on some instance, or
    one of the three queries. *)
Inductive call `{Database} : World -> World -> Prop :=
| call_create self self' w w' :
    PersistentBase.create self w = inr (self', w') -> call w w'
| call_update self self' w w' :
    PersistentBase.update self w = inr (self', w') -> call w w'
| call_delete self self' w w' :
    PersistentBase.delete self w = inr (self', w') -> call w w'
| call_all records w w' :
    PersistentBase.all w = inr (records, w') -> call w w'
| call_find by_id found w w' :
    PersistentBase.find by_id w = inr (found, w') -> call w w'
| call_find_by_name n found w w' :
    find_by_name n w = inr (found, w') -> call w w'.

(** The records a storage call returned, if it returned. *)
Definition returned {A} (r : Exn + A * World) : option A :=
  match r with
  | inr (x, _) => Some x
  | inl _ => None
  end.

(** Whether the dates an instance holds are dates of the calendar. *)
Definition date_joined_valid (a : Account) : bool :=
  match date_joined a with
  | Some d => valid_date d
  | None => true
  end.

(** A database to run the model on: it takes a text as it is, stores a
    number as its decimal text, refuses the other values, and returns the
    rows in the reverse order after every write. *)
Definition sample_database : Database :=
  {| adapt := fun column size v =>
       match v with
       | PStr s => inr s
       | PInt n => inr (pretty n)
       | _ => inl (TypeMismatch column)
       end;
     heap_order := @rev Row;
     heap_order_perm := fun rows => Permutation_sym (Permutation_rev rows) |}.

Definition five_account : Account :=
  mkAccount None (PInt 5) (PStr "five@example.com") (PStr "5 Main St") PNone None.

(** * Properties *)

(** ** Dates *)

Lemma digit_val_char k : digit_val (digit_char k) = Some (k mod 10).
Proof.
  unfold digit_val, digit_char.
  assert (H : 0 <= k mod 10 < 10) by (apply Z.mod_pos_bound; lia).
  rewrite nat_ascii_embedding by lia.
  rewrite Z2Nat.id by lia.
  replace ((48 <=? 48 + k mod 10) && (48 + k mod 10 <=? 57)) with true
    by leb_true.
  f_equal. lia.
Qed.

Lemma parse_zfill4 y :
  0 <= y < 10000 ->
  parse_digits (list_ascii_of_string (zfill 4 y)) 0 = Some y.
Proof.
  intros H. cbn [zfill list_ascii_of_string parse_digits].
  rewrite !digit_val_char. cbn [parse_digits]. f_equal.
  change (10 ^ Z.of_nat 3) with 1000. change (10 ^ Z.of_nat 2) with 100.
  change (10 ^ Z.of_nat 1) with 10. change (10 ^ Z.of_nat 0) with 1.
  Z.div_mod_to_equations; lia.
Qed.

Lemma parse_zfill2 n :
  0 <= n < 100 ->
  parse_digits (list_ascii_of_string (zfill 2 n)) 0 = Some n.
Proof.
  intros H. cbn [zfill list_ascii_of_string parse_digits].
  rewrite !digit_val_char. cbn [parse_digits]. f_equal.
  change (10 ^ Z.of_nat 1) with 10. change (10 ^ Z.of_nat 0) with 1.
  Z.div_mod_to_equations; lia.
Qed.

Lemma days_in_month_le y m : days_in_month y m <= 31.
Proof.
  unfold days_in_month.
  destruct ((m =? 2) && is_leap y); [lia|].
  generalize (Z.to_nat m) as k. intros k.
  do 13 (destruct k as [|k]; [cbn; lia|]).
  cbn. destruct k; lia.
Qed.

(** [date.fromisoformat] reads back what [isoformat] prints. *)
Lemma fromisoformat_isoformat d :
  valid_date d = true -> date_fromisoformat_str (isoformat d) = inr d.
Proof.
  destruct d as [y m dd]. unfold valid_date. cbn [year month day].
  rewrite !andb_true_iff, !Z.leb_le. intros [[[[[Hy1 Hy2] Hm1] Hm2] Hd1] Hd2].
  pose proof (days_in_month_le y m) as Hdm.
  pose proof (parse_zfill4 y ltac:(lia)) as Py.
  pose proof (parse_zfill2 m ltac:(lia)) as Pm.
  pose proof (parse_zfill2 dd ltac:(lia)) as Pd.
  unfold date_fromisoformat_str, isoformat. cbn [year month day].
  cbn [zfill list_ascii_of_string] in Py, Pm, Pd.
  cbn [zfill]. cbv [String.append list_ascii_of_string].
  rewrite Py, Pm, Pd. cbn [Ascii.eqb Bool.eqb andb negb].
  replace ((1 <=? y) && (y <=? 9999)) with true by leb_true.
  replace ((1 <=? m) && (m <=? 12)) with true by leb_true.
  replace ((1 <=? dd) && (dd <=? days_in_month y m)) with true by leb_true.
  reflexivity.
Qed.

(** A date that [date.fromisoformat] returns is a valid one. *)
Lemma fromisoformat_valid s d :
  date_fromisoformat_str s = inr d -> valid_date d = true.
Proof.
  unfold date_fromisoformat_str.
  destruct (list_ascii_of_string s) as [|c1 [|c2 [|c3 [|c4 [|c5 [|c6 [|c7
    [|c8 [|c9 [|c10 [|c11 l]]]]]]]]]]]; try discriminate.
  destruct (parse_digits [c1; c2; c3; c4] 0) as [y|]; [|discriminate].
  destruct (parse_digits [c6; c7] 0) as [m|]; [|discriminate].
  destruct (parse_digits [c9; c10] 0) as [dd|]; [|discriminate].
  destruct (negb _); [discriminate|].
  destruct ((1 <=? y) && (y <=? 9999)) eqn:Hy; [|discriminate].
  destruct ((1 <=? m) && (m <=? 12)) eqn:Hm; [|discriminate].
  destruct ((1 <=? dd) && (dd <=? days_in_month y m)) eqn:Hd; [|discriminate].
  cbn [negb]. intros [= <-]. unfold valid_date. cbn [year month day].
  apply andb_true_iff in Hy as [-> ->], Hm as [-> ->], Hd as [-> ->].
  reflexivity.
Qed.

(** ** serialize *)

Lemma serialize_lookup self :
  serialize self !! "id" =
    Some (match id self with Some i => PInt i | None => PNone end) /\
  serialize self !! "name" = Some (name self) /\
  serialize self !! "email" = Some (email self) /\
  serialize self !! "address" = Some (address self) /\
  serialize self !! "phone_number" = Some (phone_number self) /\
  serialize self !! "date_joined" =
    Some (match date_joined self with
          | Some d => PStr (isoformat d)
          | None => PNone
          end).
Proof. unfold serialize. repeat split; by simplify_map_eq. Qed.

Lemma serialize_dom self :
  dom (serialize self) =
    ({["id"; "name"; "email"; "address"; "phone_number"; "date_joined"]}
       : gset string).
Proof. unfold serialize. rewrite !dom_insert_L, dom_empty_L. set_solver. Qed.

(** C5: [serialize] returns a mapping with exactly the six keys, holding
    the instance's fields; [date_joined] is null when unset and, when set,
    the ten characters [YYYY-MM-DD] which [date.fromisoformat] reads back
    as the same date.  [serialize] being a function from the instance to
    the mapping, it can neither read nor change anything else. *)
Theorem serialize_mapping self :
  dom (serialize self) =
    ({["id"; "name"; "email"; "address"; "phone_number"; "date_joined"]}
       : gset string) /\
  serialize self !! "id" =
    Some (match id self with Some i => PInt i | None => PNone end) /\
  serialize self !! "name" = Some (name self) /\
  serialize self !! "email" = Some (email self) /\
  serialize self !! "address" = Some (address self) /\
  serialize self !! "phone_number" = Some (phone_number self) /\
  (date_joined self = None -> serialize self !! "date_joined" = Some PNone) /\
  (forall d, date_joined self = Some d -> valid_date d = true ->
     exists s, serialize self !! "date_joined" = Some (PStr s) /\
               String.length s = 10%nat /\
               date_fromisoformat_str s = inr d).
Proof.
  split; [apply serialize_dom|].
  destruct (serialize_lookup self) as (Hi & Hn & He & Ha & Hp & Hd).
  repeat split; try assumption.
  - intros H. by rewrite Hd, H.
  - intros d H Hv. exists (isoformat d). rewrite Hd, H.
    split; [reflexivity|]. split; [reflexivity|].
    by apply fromisoformat_isoformat.
Qed.

Lemma serialize_mapping_witness :
  valid_date (mkdate 2024 2 29) = true /\
  exists s,
    serialize (mkAccount (Some 7) (PStr "Ann") (PStr "ann@example.com")
                 (PStr "1 Main St") PNone (Some (mkdate 2024 2 29)))
      !! "date_joined" = Some (PStr s) /\
    String.length s = 10%nat /\
    date_fromisoformat_str s = inr (mkdate 2024 2 29).
Proof.
  split; [reflexivity|].
  apply (serialize_mapping
           (mkAccount (Some 7) (PStr "Ann") (PStr "ann@example.com")
              (PStr "1 Main St") PNone (Some (mkdate 2024 2 29))));
    reflexivity.
Defined.

(** ** deserialize: inputs it refuses before reading [date_joined] *)

Lemma deserialize_no_name today (m : gmap string PyVal) self :
  m !! "name" = None ->
  deserialize today (PDict m) self =
    (inl (DataValidationError "Invalid Account: missing name" (KeyError "name")),
     self).
Proof. intros H. unfold_stm. rewrite H. reflexivity. Qed.

Lemma deserialize_no_email today (m : gmap string PyVal) self vn :
  m !! "name" = Some vn -> m !! "email" = None ->
  deserialize today (PDict m) self =
    (inl (DataValidationError "Invalid Account: missing email" (KeyError "email")),
     mkAccount (id self) vn (email self) (address self) (phone_number self)
               (date_joined self)).
Proof. intros H1 H2. unfold_stm. rewrite H1, H2. reflexivity. Qed.

Lemma deserialize_no_address today (m : gmap string PyVal) self vn ve :
  m !! "name" = Some vn -> m !! "email" = Some ve -> m !! "address" = None ->
  deserialize today (PDict m) self =
    (inl (DataValidationError "Invalid Account: missing address"
            (KeyError "address")),
     mkAccount (id self) vn ve (address self) (phone_number self)
               (date_joined self)).
Proof. intros H1 H2 H3. unfold_stm. rewrite H1, H2, H3. reflexivity. Qed.

(** C2: a mapping that lacks [name], [email] or [address] makes
    [deserialize] raise [DataValidationError]; the message names the first
    such key the mapping lacks, which is [name] for the empty mapping. *)
Theorem deserialize_missing_key today (m : gmap string PyVal) self :
  m !! "name" = None \/ m !! "email" = None \/ m !! "address" = None ->
  exists k,
    first_missing m = Some k /\
    m !! k = None /\
    (deserialize today (PDict m) self).1 =
      inl (DataValidationError ("Invalid Account: missing " ++ k) (KeyError k)) /\
    (m = ∅ -> k = "name").
Proof.
  intros H. unfold first_missing. cbn [List.find].
  destruct (m !! "name") as [vn|] eqn:Hn.
  - rewrite bool_decide_eq_false_2 by discriminate.
    destruct (m !! "email") as [ve|] eqn:He.
    + rewrite bool_decide_eq_false_2 by discriminate.
      destruct (m !! "address") as [va|] eqn:Ha.
      * destruct H as [H|[H|H]]; discriminate H.
      * exists "address". rewrite bool_decide_eq_true_2 by reflexivity.
        rewrite (deserialize_no_address today m self vn ve Hn He Ha).
        repeat split; try done. intros ->. by rewrite lookup_empty in Hn.
    + exists "email". rewrite bool_decide_eq_true_2 by reflexivity.
      rewrite (deserialize_no_email today m self vn Hn He).
      repeat split; try done. intros ->. by rewrite lookup_empty in Hn.
  - exists "name". rewrite bool_decide_eq_true_2 by reflexivity.
    rewrite (deserialize_no_name today m self Hn). done.
Qed.

Lemma deserialize_missing_key_witness :
  exists k,
    first_missing ∅ = Some k /\
    (∅ : gmap string PyVal) !! k = None /\
    (deserialize nov3 (PDict ∅) Account_new).1 =
      inl (DataValidationError ("Invalid Account: missing " ++ k) (KeyError k)) /\
    ((∅ : gmap string PyVal) = ∅ -> k = "name").
Proof.
  apply (deserialize_missing_key nov3 ∅ Account_new). left. reflexivity.
Defined.

(** C3: an input that is not a mapping makes [deserialize] raise
    [DataValidationError] with the bad-data message; the error translates a
    [TypeError], so it differs, in cause and in message, from the error for
    a missing key.  Nothing has been assigned to the instance. *)
Theorem deserialize_not_a_mapping today data self :
  (forall m, data <> PDict m) ->
  exists msg,
    deserialize today data self =
      (inl (DataValidationError
              ("Invalid Account: body of request contained bad or no data - "
               ++ msg) (TypeError msg)), self) /\
    forall k,
      TypeError msg <> KeyError k /\
      "Invalid Account: body of request contained bad or no data - " ++ msg
        <> "Invalid Account: missing " ++ k.
Proof.
  intros Hdata.
  destruct data; try (by destruct (Hdata m));
    (eexists; split; [reflexivity|]; intros k; split; [discriminate|];
     cbn [String.append]; intros H; discriminate H).
Qed.

Lemma deserialize_not_a_mapping_witness :
  exists msg,
    deserialize nov3 (PList []) Account_new =
      (inl (DataValidationError
              ("Invalid Account: body of request contained bad or no data - "
               ++ msg) (TypeError msg)), Account_new) /\
    forall k,
      TypeError msg <> KeyError k /\
      "Invalid Account: body of request contained bad or no data - " ++ msg
        <> "Invalid Account: missing " ++ k.
Proof.
  apply (deserialize_not_a_mapping nov3 (PList []) Account_new).
  intros m. discriminate.
Defined.

(** C9: when the mapping holds [name] but not [email], the error for the
    missing [email] is raised after [name] has been assigned: the instance
    keeps the mapping's [name], and its other fields as they were. *)
Theorem deserialize_not_atomic today (m : gmap string PyVal) self vn :
  m !! "name" = Some vn -> m !! "email" = None ->
  exists self',
    deserialize today (PDict m) self =
      (inl (DataValidationError "Invalid Account: missing email"
              (KeyError "email")), self') /\
    name self' = vn /\
    id self' = id self /\ email self' = email self /\
    address self' = address self /\ phone_number self' = phone_number self /\
    date_joined self' = date_joined self.
Proof.
  intros Hn He. eexists. split.
  - apply (deserialize_no_email today m self vn Hn He).
  - repeat split.
Qed.

Lemma deserialize_not_atomic_witness :
  exists self',
    deserialize nov3 (PDict {["name" := PStr "Bob"]}) ann_account =
      (inl (DataValidationError "Invalid Account: missing email"
              (KeyError "email")), self') /\
    name self' = PStr "Bob" /\
    id self' = id ann_account /\ email self' = email ann_account /\
    address self' = address ann_account /\
    phone_number self' = phone_number ann_account /\
    date_joined self' = date_joined ann_account.
Proof.
  apply (deserialize_not_atomic nov3 {["name" := PStr "Bob"]} ann_account);
    vm_compute; reflexivity.
Defined.

(** ** deserialize: mappings that hold the three required keys *)

Section RequiredKeys.

Variable today : date.
Variable m : gmap string PyVal.
Variable self : Account.
Variables vn ve va : PyVal.
Hypothesis Hname : m !! "name" = Some vn.
Hypothesis Hemail : m !! "email" = Some ve.
Hypothesis Haddress : m !! "address" = Some va.

(** [data.get("date_joined")]. *)
Let dj : PyVal := default PNone (m !! "date_joined").

(** The outcome is decided by [date_joined] alone. *)
Lemma deserialize_required_present :
  deserialize today (PDict m) self =
    if truthy dj then
      match date_fromisoformat dj with
      | inr d => (inr (assigned self m vn ve va (Some d)),
                  assigned self m vn ve va (Some d))
      | inl (TypeError msg) =>
          (inl (DataValidationError
                  ("Invalid Account: body of request contained bad or no data - "
                   ++ msg) (TypeError msg)),
           assigned self m vn ve va (date_joined self))
      | inl e => (inl e, assigned self m vn ve va (date_joined self))
      end
    else (inr (assigned self m vn ve va (Some today)),
          assigned self m vn ve va (Some today)).
Proof.
  unfold_stm. rewrite Hname, Hemail, Haddress. cbn. fold dj.
  destruct (truthy dj); [|reflexivity].
  unfold date_fromisoformat.
  destruct dj; try reflexivity.
  destruct (date_fromisoformat_str s); reflexivity.
Qed.

Lemma parsed_is_truthy s d :
  date_fromisoformat_str s = inr d -> truthy (PStr s) = true.
Proof. destruct s; [vm_compute; discriminate|reflexivity]. Qed.

Lemma serialize_assigned d :
  serialize (assigned self m vn ve va (Some d)) !! "name" = Some vn /\
  serialize (assigned self m vn ve va (Some d)) !! "email" = Some ve /\
  serialize (assigned self m vn ve va (Some d)) !! "address" = Some va /\
  exists d', serialize (assigned self m vn ve va (Some d)) !! "date_joined"
             = Some (PStr (isoformat d')).
Proof.
  destruct (serialize_lookup (assigned self m vn ve va (Some d)))
    as (_ & -> & -> & -> & _ & ->).
  repeat split. by exists d.
Qed.

(** C1, as amended: for every mapping that holds [name], [email] and
    [address], and whose [date_joined] is absent, tests false, or is a
    string that parses as a date, [deserialize] followed by [serialize]
    gives back the mapping's [name], [email] and [address] entries
    unchanged, and a [date_joined] entry that is a date string, not null. *)
Theorem deserialize_serialize_roundtrip :
  truthy dj = false \/
    (exists s d, dj = PStr s /\ date_fromisoformat_str s = inr d) ->
  exists self',
    deserialize today (PDict m) self = (inr self', self') /\
    serialize self' !! "name" = Some vn /\
    serialize self' !! "email" = Some ve /\
    serialize self' !! "address" = Some va /\
    exists d, serialize self' !! "date_joined" = Some (PStr (isoformat d)).
Proof.
  intros Hd. rewrite deserialize_required_present.
  destruct Hd as [Ht|(s & d & Hs & Hp)].
  - rewrite Ht. eexists. split; [reflexivity|apply serialize_assigned].
  - rewrite Hs, (parsed_is_truthy s d Hp). cbn [date_fromisoformat]. rewrite Hp.
    eexists. split; [reflexivity|apply serialize_assigned].
Qed.

(** C4, as amended: with the required keys present, a [date_joined] that
    tests true must be a string that parses as a date, and the parsed date
    is stored; a [date_joined] that is absent or tests false ([None], the
    empty string, zero) is not parsed, and the field takes the date of the
    clock at the call, whatever the instance held before. *)
Theorem deserialize_date_joined :
  (truthy dj = true ->
     forall self', (deserialize today (PDict m) self).1 = inr self' ->
       exists s d, dj = PStr s /\ date_fromisoformat_str s = inr d /\
                   date_joined self' = Some d) /\
  (forall s d, dj = PStr s -> date_fromisoformat_str s = inr d ->
     exists self', deserialize today (PDict m) self = (inr self', self') /\
                   date_joined self' = Some d) /\
  (truthy dj = false ->
     exists self', deserialize today (PDict m) self = (inr self', self') /\
                   date_joined self' = Some today).
Proof.
  rewrite deserialize_required_present. repeat split.
  - intros Ht self'. rewrite Ht. unfold date_fromisoformat.
    destruct dj; try discriminate.
    destruct (date_fromisoformat_str s) as [why|d] eqn:Hp; [discriminate|].
    cbn. intros [= <-]. by exists s, d.
  - intros s d Hs Hp. rewrite Hs, (parsed_is_truthy s d Hp).
    cbn [date_fromisoformat]. rewrite Hp. by eexists.
  - intros ->. by eexists.
Qed.

(** C10, as amended: with the required keys present, a [date_joined] that
    is a non-empty string and does not parse makes [deserialize] raise the
    [ValueError] of the parser, which is not a [DataValidationError]; a
    [date_joined] that is not a string and tests true (a non-zero integer)
    makes it raise the [DataValidationError] for bad data. *)
Theorem unparsable_date_joined_raises :
  (forall s why,
     m !! "date_joined" = Some (PStr s) -> s <> "" ->
     date_fromisoformat_str s = inl why ->
     (deserialize today (PDict m) self).1 = inl (ValueError why) /\
     forall msg cause, ValueError why <> DataValidationError msg cause) /\
  (forall v,
     m !! "date_joined" = Some v -> (forall s, v <> PStr s) -> truthy v = true ->
     (deserialize today (PDict m) self).1 =
       inl (DataValidationError
              "Invalid Account: body of request contained bad or no data - fromisoformat: argument must be str"
              (TypeError "fromisoformat: argument must be str"))).
Proof.
  rewrite deserialize_required_present. unfold dj. split.
  - intros s why -> Hs Hp. cbn [default from_option Datatypes.id].
    assert (truthy (PStr s) = true) as ->.
    { destruct s; [done|reflexivity]. }
    cbn [date_fromisoformat]. rewrite Hp. split; [reflexivity|discriminate].
  - intros v -> Hv Ht. cbn [default from_option Datatypes.id]. rewrite Ht.
    destruct v; try reflexivity. by destruct (Hv s).
Qed.

End RequiredKeys.

Lemma deserialize_serialize_roundtrip_witness :
  exists self',
    deserialize nov3 (PDict ann) Account_new = (inr self', self') /\
    serialize self' !! "name" = Some (PStr "Ann") /\
    serialize self' !! "email" = Some (PStr "ann@example.com") /\
    serialize self' !! "address" = Some (PStr "1 Main St") /\
    exists d, serialize self' !! "date_joined" = Some (PStr (isoformat d)).
Proof.
  apply (deserialize_serialize_roundtrip nov3 ann Account_new);
    try (vm_compute; reflexivity).
  left. vm_compute. reflexivity.
Defined.

(** C1, as stated, fails: a mapping with the three required keys (text
    values) and a [date_joined] that does not parse makes [deserialize]
    raise, so that there is nothing to serialize. *)
Lemma roundtrip_fails_on_unparsable_date :
  ann_joined (PStr "not-a-date") !! "name" = Some (PStr "Ann") /\
  ann_joined (PStr "not-a-date") !! "email" = Some (PStr "ann@example.com") /\
  ann_joined (PStr "not-a-date") !! "address" = Some (PStr "1 Main St") /\
  (deserialize nov3 (PDict (ann_joined (PStr "not-a-date"))) Account_new).1 =
    inl (ValueError (InvalidIsoformat "not-a-date")) /\
  ~ exists self',
      (deserialize nov3 (PDict (ann_joined (PStr "not-a-date"))) Account_new).1
      = inr self'.
Proof.
  repeat split; try (vm_compute; reflexivity).
  intros [self' H]. vm_compute in H. discriminate H.
Qed.

Lemma deserialize_date_joined_witness :
  (truthy (default PNone (ann_joined (PStr "2024-02-29") !! "date_joined")) = true ->
     forall self',
       (deserialize nov3 (PDict (ann_joined (PStr "2024-02-29"))) ann_account).1
         = inr self' ->
       exists s d,
         default PNone (ann_joined (PStr "2024-02-29") !! "date_joined") = PStr s /\
         date_fromisoformat_str s = inr d /\ date_joined self' = Some d) /\
  (forall s d,
     default PNone (ann_joined (PStr "2024-02-29") !! "date_joined") = PStr s ->
     date_fromisoformat_str s = inr d ->
     exists self',
       deserialize nov3 (PDict (ann_joined (PStr "2024-02-29"))) ann_account
         = (inr self', self') /\
       date_joined self' = Some d) /\
  (truthy (default PNone (ann_joined (PStr "2024-02-29") !! "date_joined")) = false ->
     exists self',
       deserialize nov3 (PDict (ann_joined (PStr "2024-02-29"))) ann_account
         = (inr self', self') /\
       date_joined self' = Some nov3).
Proof.
  apply (deserialize_date_joined nov3 (ann_joined (PStr "2024-02-29"))
           ann_account (PStr "Ann") (PStr "ann@example.com") (PStr "1 Main St"));
    vm_compute; reflexivity.
Defined.

(** C4, as stated, fails: [date_joined] is present and is not a date
    string (the empty string, or [None] as [serialize] itself emits it),
    yet [deserialize] returns, with the date of the clock. *)
Lemma falsy_date_joined_is_not_parsed :
  ann_joined (PStr "") !! "date_joined" = Some (PStr "") /\
  date_fromisoformat (PStr "") = inl (ValueError (InvalidIsoformat "")) /\
  (exists self',
     deserialize nov3 (PDict (ann_joined (PStr ""))) Account_new
       = (inr self', self') /\
     date_joined self' = Some nov3) /\
  ann_joined PNone !! "date_joined" = Some PNone /\
  (exists self',
     deserialize nov3 (PDict (ann_joined PNone)) Account_new
       = (inr self', self') /\
     date_joined self' = Some nov3).
Proof.
  repeat split; try (vm_compute; reflexivity);
    eexists; split; vm_compute; reflexivity.
Qed.

Lemma unparsable_date_joined_raises_witness :
  (forall s why,
     ann_joined (PStr "not-a-date") !! "date_joined" = Some (PStr s) -> s <> "" ->
     date_fromisoformat_str s = inl why ->
     (deserialize nov3 (PDict (ann_joined (PStr "not-a-date"))) Account_new).1
       = inl (ValueError why) /\
     forall msg cause, ValueError why <> DataValidationError msg cause) /\
  (forall v,
     ann_joined (PStr "not-a-date") !! "date_joined" = Some v ->
     (forall s, v <> PStr s) -> truthy v = true ->
     (deserialize nov3 (PDict (ann_joined (PStr "not-a-date"))) Account_new).1 =
       inl (DataValidationError
              "Invalid Account: body of request contained bad or no data - fromisoformat: argument must be str"
              (TypeError "fromisoformat: argument must be str"))).
Proof.
  apply (unparsable_date_joined_raises nov3 (ann_joined (PStr "not-a-date"))
           Account_new (PStr "Ann") (PStr "ann@example.com") (PStr "1 Main St"));
    vm_compute; reflexivity.
Defined.

(** C10, as stated, fails: zero is an integer, not a string, and
    [deserialize] accepts it as if [date_joined] were absent. *)
Lemma zero_date_joined_is_accepted :
  ann_joined (PInt 0) !! "date_joined" = Some (PInt 0) /\
  exists self',
    deserialize nov3 (PDict (ann_joined (PInt 0))) Account_new
      = (inr self', self') /\
    date_joined self' = Some nov3.
Proof.
  split; [vm_compute; reflexivity|].
  eexists; split; vm_compute; reflexivity.
Qed.

(** The two outcomes C10 tells apart, run on the model. *)
Example deserialize_date_joined_not_a_date :
  (deserialize nov3 (PDict (ann_joined (PStr "not-a-date"))) Account_new).1 =
    inl (ValueError (InvalidIsoformat "not-a-date")).
Proof. vm_compute. reflexivity. Qed.

Example deserialize_date_joined_integer :
  (deserialize nov3 (PDict (ann_joined (PInt 5))) Account_new).1 =
    inl (DataValidationError
           "Invalid Account: body of request contained bad or no data - fromisoformat: argument must be str"
           (TypeError "fromisoformat: argument must be str")).
Proof. vm_compute. reflexivity. Qed.


(** ** Storage calls *)

Lemma DB_bind_inr {A B} (c : DB A) (k : A -> DB B) w y w' :
  (c ≫= k) w = inr (y, w') ->
  exists x w1, c w = inr (x, w1) /\ k x w1 = inr (y, w').
Proof.
  unfold mbind, DB_bind. destruct (c w) as [e|[x w1]]; [discriminate|].
  intros H. by exists x, w1.
Qed.

Lemma db_eval_inr {A} (r : StorageFailure + A) w x w' :
  db_eval r w = inr (x, w') -> r = inr x /\ w' = w.
Proof. destruct r; cbn; [discriminate|]. by intros [= -> ->]. Qed.

Lemma not_null_inr {A} column (o : option A) x :
  not_null column o = inr x -> o = Some x.
Proof. destruct o; cbn; [by intros [= ->]|discriminate]. Qed.

Lemma logger_info_inr msg args w x w' :
  logger_info msg args w = inr (x, w') ->
  w' = mkWorld (table w) (sequence w) (clock w) (log w ++ [mkLog msg args]).
Proof. by intros [= <-]. Qed.

Lemma has_key_false pk rows :
  has_key pk rows = false <-> ~ In pk (map row_id rows).
Proof.
  unfold has_key. induction rows as [|r0 rows IH]; cbn.
  - split; [intros _ []|done].
  - rewrite orb_false_iff, IH, Z.eqb_neq. tauto.
Qed.

Lemma has_key_true pk rows :
  has_key pk rows = true <-> exists r, In r rows /\ row_id r = pk.
Proof.
  unfold has_key. rewrite existsb_exists.
  split; intros (r & Hr & E); exists r; (split; [done|]); by apply Z.eqb_eq.
Qed.

Lemma find_deleted pk rows :
  List.find (fun r => row_id r =? pk)
            (List.filter (fun r => negb (row_id r =? pk)) rows) = None.
Proof.
  induction rows as [|r0 rows IH]; cbn; [done|].
  destruct (row_id r0 =? pk) eqn:E; cbn; [done|]. by rewrite E.
Qed.

Lemma filter_map_sublist {A B} (f : A -> B) (p : A -> bool) l :
  sublist (map f (List.filter p l)) (map f l).
Proof.
  induction l as [|x l IH]; cbn; [constructor|].
  destruct (p x); cbn; by constructor.
Qed.

(** [find] by key, whatever the order of the rows. *)

Lemma find_key_absent pk rows :
  (forall r, In r rows -> row_id r <> pk) ->
  List.find (fun r => row_id r =? pk) rows = None.
Proof.
  intros Hno. destruct (List.find _ rows) as [r|] eqn:E; [|done].
  apply find_some in E as [Hin Hr]. apply Z.eqb_eq in Hr. by destruct (Hno r Hin).
Qed.

Lemma find_key_only pk rows r :
  In r rows -> row_id r = pk ->
  (forall r', In r' rows -> row_id r' = pk -> r' = r) ->
  List.find (fun r' => row_id r' =? pk) rows = Some r.
Proof.
  intros Hin Hr Honly. destruct (List.find _ rows) as [r'|] eqn:E.
  - apply find_some in E as [Hin' Hr']. apply Z.eqb_eq in Hr'.
    by rewrite (Honly r' Hin' Hr').
  - apply (find_none _ _ E) in Hin. apply Z.eqb_neq in Hin. by destruct Hin.
Qed.

Lemma NoDup_keys_inj rows r1 r2 :
  NoDup (map row_id rows) -> In r1 rows -> In r2 rows ->
  row_id r1 = row_id r2 -> r1 = r2.
Proof.
  induction rows as [|r rows IH]; cbn; [done|].
  intros [Hnin Hnd]%NoDup_cons [<- | H1] [<- | H2] E; try done.
  - destruct Hnin. rewrite E. apply list_elem_of_In. by apply in_map.
  - destruct Hnin. rewrite <- E. apply list_elem_of_In. by apply in_map.
  - by apply IH.
Qed.

Lemma find_perm j rows rows' :
  NoDup (map row_id rows) -> Permutation rows' rows ->
  List.find (fun r => row_id r =? j) rows' =
    List.find (fun r => row_id r =? j) rows.
Proof.
  intros Hnd Hp. destruct (List.find _ rows) as [r|] eqn:E.
  - apply find_some in E as [Hin Hr]. apply Z.eqb_eq in Hr.
    apply find_key_only; [by apply (Permutation_in _ (Permutation_sym Hp))|done|].
    intros r' Hin' Hr'. apply (NoDup_keys_inj rows); try done; [|congruence].
    by apply (Permutation_in _ Hp).
  - apply find_key_absent. intros r Hin.
    apply (Permutation_in _ Hp), (find_none _ _ E) in Hin. by apply Z.eqb_neq.
Qed.

Section Lifecycle.

Context `{Database}.

Lemma bind_string_None column size v :
  bind_string column size v = inr None -> v = PNone.
Proof.
  unfold bind_string. destruct v; try done;
    by destruct (adapt column size _).
Qed.

(** [create] of a transient instance, when it returns, has stored one row
    under a key that was free: the texts are what the database made of the
    attributes, the date is the instance's or the clock's, and the
    instance is that of the row. *)
Lemma create_effect self w self' w' :
  sa_state self = Transient ->
  PersistentBase.create self w = inr (self', w') ->
  exists r,
    bind_string "name" 64 (name (attrs self)) = inr (Some (row_name r)) /\
    bind_string "email" 64 (email (attrs self)) = inr (Some (row_email r)) /\
    bind_string "address" 256 (address (attrs self)) = inr (Some (row_address r)) /\
    bind_string "phone_number" 32 (phone_number (attrs self))
      = inr (row_phone_number r) /\
    row_id r = default (sequence w) (id (attrs self)) /\
    row_date_joined r = default (clock w) (date_joined (attrs self)) /\
    has_key (row_id r) (table w) = false /\
    self' = instance_of_row r /\
    w' = mkWorld (heap_order (table w ++ [r]))
                 (match id (attrs self) with
                  | Some _ => sequence w
                  | None => sequence w + 1
                  end)
                 (clock w)
                 (log w ++ [mkLog "Creating %s" [repr (attrs self)]]).
Proof.
  unfold PersistentBase.create, session_add. intros Hst H'. rewrite Hst in H'.
  apply DB_bind_inr in H' as ([] & w0 & H0 & H'). apply logger_info_inr in H0 as ->.
  set (w0 := mkWorld _ _ _ _) in H'.
  apply DB_bind_inr in H' as (u & w1 & H1 & H'). injection H1 as <- <-.
  unfold session_commit, flush_insert in H'.
  apply DB_bind_inr in H' as (n & w1 & Hn & H'). apply db_eval_inr in Hn as [Hn ->].
  apply DB_bind_inr in H' as (e & w1 & He & H'). apply db_eval_inr in He as [He ->].
  apply DB_bind_inr in H' as (ad & w1 & Ha & H'). apply db_eval_inr in Ha as [Ha ->].
  apply DB_bind_inr in H' as (ph & w1 & Hp & H'). apply db_eval_inr in Hp as [Hp ->].
  apply DB_bind_inr in H' as (dj & w1 & Hd & H').
  apply DB_bind_inr in H' as (pk & w2 & Hk & H').
  apply DB_bind_inr in H' as (n' & w3 & Hn' & H'). apply db_eval_inr in Hn' as [Hn' ->].
  apply DB_bind_inr in H' as (e' & w3 & He' & H'). apply db_eval_inr in He' as [He' ->].
  apply DB_bind_inr in H' as (ad' & w3 & Ha' & H'). apply db_eval_inr in Ha' as [Ha' ->].
  apply DB_bind_inr in H' as ([] & w3 & Hi & H'). injection H' as <- <-.
  apply not_null_inr in Hn' as ->, He' as ->, Ha' as ->.
  assert (dj = default (clock w) (date_joined (attrs self)) /\ w1 = w0) as [-> ->].
  { destruct (date_joined (attrs self)); injection Hd as <- <-; done. }
  assert (pk = default (sequence w) (id (attrs self)) /\
          w2 = mkWorld (table w)
                 (match id (attrs self) with
                  | Some _ => sequence w
                  | None => sequence w + 1
                  end)
                 (clock w) (log w0)) as [-> ->].
  { destruct (id (attrs self)); injection Hk as <- <-; done. }
  unfold insert_row in Hi. cbn [row_id table sequence clock log] in Hi.
  destruct (has_key _ (table w)) eqn:Hfresh; [discriminate|].
  injection Hi as <-.
  by exists (mkRow (default (sequence w) (id (attrs self))) n' e' ad' ph
               (default (clock w) (date_joined (attrs self)))).
Qed.

(** [delete] of an instance that has a key always returns: the rows of
    that key are gone and the instance is detached. *)
Lemma delete_effect self w k :
  sa_state self = Persistent k \/ sa_state self = Detached k ->
  PersistentBase.delete self w =
    inr (mkInstance (attrs self) (Detached k),
         mkWorld (heap_order (List.filter (fun r => negb (row_id r =? k)) (table w)))
                 (sequence w) (clock w)
                 (log w ++ [mkLog "Deleting %s" [repr (attrs self)]])).
Proof.
  unfold PersistentBase.delete, session_delete. by intros [-> | ->].
Qed.

Lemma row_in_written pk rows r :
  In r (heap_order (rows ++ [pk])) <-> In r rows \/ r = pk.
Proof.
  split.
  - intros Hin%(Permutation_in _ (heap_order_perm _))%in_app_or.
    destruct Hin as [|[<-|[]]]; auto.
  - intros Hin. apply (Permutation_in _ (Permutation_sym (heap_order_perm _))).
    apply in_or_app. destruct Hin as [Hin | ->]; [by left|right; by left].
Qed.

(** C6: when [create] returns for a transient instance, the instance is
    persistent under an id that is not null, and [find] on that id returns
    a record equal to it in every field.  Its fields are what the database
    made of the attributes it was created with, [date_joined] being the
    clock's date if it was unset. *)
Theorem create_then_find self w self' w' :
  sa_state self = Transient ->
  PersistentBase.create self w = inr (self', w') ->
  exists k,
    id (attrs self') = Some k /\
    sa_state self' = Persistent k /\ persisted self' w' = true /\
    (exists w'', PersistentBase.find k w' = inr (Some (attrs self'), w'')) /\
    (exists n e ad ph,
       bind_string "name" 64 (name (attrs self)) = inr (Some n) /\
       bind_string "email" 64 (email (attrs self)) = inr (Some e) /\
       bind_string "address" 256 (address (attrs self)) = inr (Some ad) /\
       bind_string "phone_number" 32 (phone_number (attrs self)) = inr ph /\
       name (attrs self') = PStr n /\ email (attrs self') = PStr e /\
       address (attrs self') = PStr ad /\
       phone_number (attrs self') =
         match ph with Some p => PStr p | None => PNone end) /\
    date_joined (attrs self') =
      Some (default (clock w) (date_joined (attrs self))).
Proof.
  intros Hst Hc.
  apply create_effect in Hc
    as (r & Hn & He & Ha & Hp & Hpk & Hdj & Hk & -> & ->); [|done].
  exists (row_id r). cbn [instance_of_row attrs sa_state account_of_row id
    name email address phone_number date_joined].
  assert (Hin : In r (heap_order (table w ++ [r]))) by (apply row_in_written; auto).
  split; [reflexivity|]. split; [reflexivity|]. split; [|split; [|split]].
  - unfold persisted. cbn [sa_state table]. apply has_key_true. by exists r.
  - eexists. unfold PersistentBase.find, query_get, logger_info, mbind, DB_bind.
    cbn [table]. rewrite (find_key_only (row_id r) _ r); [reflexivity|done|done|].
    intros r' [Hr' | ->]%row_in_written E; [|done].
    apply has_key_false in Hk. destruct Hk. rewrite <- E. by apply in_map.
  - by exists (row_name r), (row_email r), (row_address r), (row_phone_number r).
  - by rewrite Hdj.
Qed.

(** C7: [delete] returns for a persisted instance, and afterwards [find]
    on its id returns nothing and no record of [all] has that id. *)
Theorem delete_then_absent self w k :
  persisted self w = true -> id (attrs self) = Some k ->
  sa_state self = Persistent k ->
  exists self' w',
    PersistentBase.delete self w = inr (self', w') /\
    (exists w'', PersistentBase.find k w' = inr (None, w'')) /\
    (exists records w'',
       PersistentBase.all w' = inr (records, w'') /\
       forall a, In a records -> id a <> Some k).
Proof.
  intros _ _ Hst. eexists _, _. split; [apply delete_effect; by left|].
  assert (Hgone : forall r,
    In r (heap_order (List.filter (fun r => negb (row_id r =? k)) (table w))) ->
    row_id r <> k).
  { intros r Hin%(Permutation_in _ (heap_order_perm _)).
    apply filter_In in Hin as [_ Hne]. by apply negb_true_iff, Z.eqb_neq in Hne. }
  split.
  - eexists. unfold PersistentBase.find, query_get, logger_info, mbind, DB_bind.
    cbn [table]. by rewrite find_key_absent.
  - eexists _, _. split; [reflexivity|]. cbn [table].
    intros a (r & <- & Hin)%in_map_iff. apply Hgone in Hin. cbn. congruence.
Qed.

End Lifecycle.

Lemma create_then_find_witness :
  exists self' w',
    @PersistentBase.create sample_database (transient five_account) three_rows
      = inr (self', w') /\
    attrs self' = mkAccount (Some 4) (PStr "5") (PStr "five@example.com")
                    (PStr "5 Main St") PNone (Some nov3) /\
    exists k,
      id (attrs self') = Some k /\
      (exists w'', PersistentBase.find k w' = inr (Some (attrs self'), w'')).
Proof.
  eexists _, _. split; [vm_compute; reflexivity|]. split; [reflexivity|].
  destruct (@create_then_find sample_database (transient five_account)
              three_rows _ _ eq_refl eq_refl)
    as (k & Hid & _ & _ & Hfind & _).
  exists k. by split.
Defined.

Lemma delete_then_absent_witness :
  exists self' w',
    @PersistentBase.delete sample_database (instance_of_row (bob_row 2)) three_rows
      = inr (self', w') /\
    (exists w'', PersistentBase.find 2 w' = inr (None, w'')) /\
    (exists records w'',
       PersistentBase.all w' = inr (records, w'') /\
       forall a, In a records -> id a <> Some 2).
Proof.
  apply (@delete_then_absent sample_database (instance_of_row (bob_row 2))
           three_rows 2); reflexivity.
Defined.

(** C8: [find_by_name] never raises and changes no row; it returns, in the
    order of [all], the persisted records whose [name] is the given text,
    all of them and only them, compared character by character; when no
    record has that name the sequence is empty. *)
Theorem find_by_name_exact n w :
  exists found w' everyone w'',
    find_by_name n w = inr (found, w') /\ table w' = table w /\
    PersistentBase.all w = inr (everyone, w'') /\
    sublist found everyone /\
    (forall a, In a found <-> In a everyone /\ name a = PStr n) /\
    ((forall a, In a everyone -> name a <> PStr n) -> found = []).
Proof.
  unfold_db.
  eexists _, _, _, _. split; [reflexivity|]. split; [reflexivity|].
  split; [reflexivity|]. cbn [table].
  assert (Hmem : forall a,
    In a (map account_of_row
            (List.filter (fun r => String.eqb (row_name r) n) (table w))) <->
    In a (map account_of_row (table w)) /\ name a = PStr n).
  { intros a. rewrite !in_map_iff. split.
    - intros (r & <- & Hr). apply filter_In in Hr as [Hr Hn].
      apply String.eqb_eq in Hn. split; [by exists r|]. cbn. by rewrite Hn.
    - intros [(r & <- & Hr) Hn]. exists r. split; [done|].
      apply filter_In. split; [done|]. apply String.eqb_eq.
      cbn in Hn. congruence. }
  split; [apply filter_map_sublist|]. split; [exact Hmem|].
  intros Hnone.
  destruct (map account_of_row
              (List.filter (fun r => String.eqb (row_name r) n) (table w)))
    as [|a l] eqn:E; [done|].
  destruct (proj1 (Hmem a) (or_introl eq_refl)) as [Ha Hn].
  destruct (Hnone a Ha Hn).
Qed.

Lemma find_by_name_exact_witness :
  exists found w' everyone w'',
    find_by_name "Carol" three_rows = inr (found, w') /\
    table w' = table three_rows /\
    PersistentBase.all three_rows = inr (everyone, w'') /\
    sublist found everyone /\
    (forall a, In a found <-> In a everyone /\ name a = PStr "Carol") /\
    ((forall a, In a everyone -> name a <> PStr "Carol") -> found = []).
Proof. apply find_by_name_exact. Defined.

(** [find_by_name] on three rows: both records named Ann, in table order;
    nothing for another case, for the empty string, for an unknown name. *)
Example find_by_name_three_rows :
  (exists w', find_by_name "Ann" three_rows =
     inr ([account_of_row (ann_row 1); account_of_row (ann_row 3)], w')) /\
  (exists w', find_by_name "ann" three_rows = inr ([], w')) /\
  (exists w', find_by_name "" three_rows = inr ([], w')) /\
  (exists w', find_by_name "Carol" three_rows = inr ([], w')).
Proof.
  repeat split; eexists; vm_compute; reflexivity.
Qed.

(** ** The library calls, run on the model *)

Example isoformat_leap_day : isoformat (mkdate 2024 2 29) = "2024-02-29".
Proof. reflexivity. Qed.

Example fromisoformat_cases :
  date_fromisoformat_str "2024-02-29" = inr (mkdate 2024 2 29) /\
  date_fromisoformat_str "2023-02-29" = inl DayOutOfRange /\
  date_fromisoformat_str "2024-13-01" = inl MonthOutOfRange /\
  date_fromisoformat_str "0000-01-01" = inl (YearOutOfRange 0) /\
  date_fromisoformat_str "not-a-date" = inl (InvalidIsoformat "not-a-date") /\
  date_fromisoformat_str "20240229" = inl (InvalidIsoformat "20240229").
Proof. repeat split; vm_compute; reflexivity. Qed.

Example truthy_cases :
  truthy PNone = false /\ truthy (PInt 0) = false /\ truthy (PStr "") = false /\
  truthy (PList []) = false /\ truthy (PDict ∅) = false /\
  truthy (PInt 5) = true /\ truthy (PStr "0") = true /\
  truthy (PDict ann) = true /\ truthy (PDate nov3) = true.
Proof. repeat split; vm_compute; reflexivity. Qed.

(** * Further properties *)

(** ** deserialize, on every input *)

Lemma deserialize_non_dict today data self :
  (forall m, data <> PDict m) ->
  exists msg,
    deserialize today data self =
      (inl (DataValidationError
              ("Invalid Account: body of request contained bad or no data - "
               ++ msg) (TypeError msg)), self).
Proof.
  intros Hdata. destruct data; try (by destruct (Hdata m));
    eexists; reflexivity.
Qed.

(** The outcome of [deserialize] on a mapping, key by key. *)
Lemma deserialize_dict today (m : gmap string PyVal) self :
  deserialize today (PDict m) self =
    match m !! "name", m !! "email", m !! "address" with
    | None, _, _ =>
        (inl (DataValidationError "Invalid Account: missing name"
                (KeyError "name")), self)
    | Some vn, None, _ =>
        (inl (DataValidationError "Invalid Account: missing email"
                (KeyError "email")),
         mkAccount (id self) vn (email self) (address self)
                   (phone_number self) (date_joined self))
    | Some vn, Some ve, None =>
        (inl (DataValidationError "Invalid Account: missing address"
                (KeyError "address")),
         mkAccount (id self) vn ve (address self)
                   (phone_number self) (date_joined self))
    | Some vn, Some ve, Some va =>
        match default PNone (m !! "date_joined") with
        | PStr s =>
            if String.eqb s "" then
              (inr (assigned self m vn ve va (Some today)),
               assigned self m vn ve va (Some today))
            else
              match date_fromisoformat_str s with
              | inr d => (inr (assigned self m vn ve va (Some d)),
                          assigned self m vn ve va (Some d))
              | inl why => (inl (ValueError why),
                            assigned self m vn ve va (date_joined self))
              end
        | v =>
            if truthy v then
              (inl (DataValidationError
                      "Invalid Account: body of request contained bad or no data - fromisoformat: argument must be str"
                      (TypeError "fromisoformat: argument must be str")),
               assigned self m vn ve va (date_joined self))
            else (inr (assigned self m vn ve va (Some today)),
                  assigned self m vn ve va (Some today))
        end
    end.
Proof.
  destruct (m !! "name") as [vn|] eqn:Hn;
    [|by apply deserialize_no_name].
  destruct (m !! "email") as [ve|] eqn:He;
    [|by apply deserialize_no_email].
  destruct (m !! "address") as [va|] eqn:Ha;
    [|by apply deserialize_no_address].
  rewrite (deserialize_required_present today m self vn ve va Hn He Ha).
  destruct (default PNone (m !! "date_joined")) as [| | |s| | |] eqn:Hd;
    cbn [truthy date_fromisoformat]; try reflexivity.
  destruct (String.eqb s ""); cbn [negb]; [reflexivity|].
  destruct (date_fromisoformat_str s); reflexivity.
Qed.

Lemma dict_or_not data :
  (exists m, data = PDict m) \/ (forall m, data <> PDict m).
Proof. destruct data; try (right; discriminate). left. by eexists. Qed.

(** X1: [deserialize] never touches [id], whether it returns or raises. *)
Theorem deserialize_keeps_id today data self :
  id (deserialize today data self).2 = id self.
Proof.
  destruct (dict_or_not data) as [[m ->]|Hnd].
  - rewrite deserialize_dict. repeat case_match; reflexivity.
  - by destruct (deserialize_non_dict today data self Hnd) as [msg ->].
Qed.

(** X2: whatever the input, [deserialize] lets no [KeyError], [TypeError]
    or [AttributeError] escape.  What it raises is a [DataValidationError]
    that translates the [KeyError] of a required key or a [TypeError], or
    the [ValueError] of the date parser. *)
Theorem deserialize_raises_only today data self e :
  (deserialize today data self).1 = inl e ->
  (exists k, In k ["name"; "email"; "address"] /\
             e = DataValidationError ("Invalid Account: missing " ++ k)
                   (KeyError k)) \/
  (exists msg,
     e = DataValidationError
           ("Invalid Account: body of request contained bad or no data - "
            ++ msg) (TypeError msg)) \/
  (exists why, e = ValueError why).
Proof.
  destruct (dict_or_not data) as [[m ->]|Hnd].
  - rewrite deserialize_dict.
    repeat case_match; cbn [fst]; intros [= <-];
      first [ left; eexists; split; [|reflexivity]; cbn; tauto
            | right; left; eexists; reflexivity
            | right; right; eexists; reflexivity ].
  - destruct (deserialize_non_dict today data self Hnd) as [msg ->].
    intros [= <-]. right. left. by exists msg.
Qed.

Lemma deserialize_raises_only_witness :
  (exists k, In k ["name"; "email"; "address"] /\
             DataValidationError "Invalid Account: missing email" (KeyError "email")
             = DataValidationError ("Invalid Account: missing " ++ k)
                 (KeyError k)) \/
  (exists msg,
     DataValidationError "Invalid Account: missing email" (KeyError "email")
     = DataValidationError
         ("Invalid Account: body of request contained bad or no data - "
          ++ msg) (TypeError msg)) \/
  (exists why,
     DataValidationError "Invalid Account: missing email" (KeyError "email")
     = ValueError why).
Proof.
  apply (deserialize_raises_only nov3 (PDict {["name" := PStr "Bob"]})
           ann_account).
  vm_compute. reflexivity.
Defined.

(** X3: [deserialize] returns exactly when the input is a mapping that
    holds [name], [email] and [address] and whose [date_joined] is absent,
    tests false, or is a string the date parser accepts. *)
Theorem deserialize_returns_iff today data self :
  (exists self', (deserialize today data self).1 = inr self') <->
  exists m,
    data = PDict m /\
    is_Some (m !! "name") /\ is_Some (m !! "email") /\
    is_Some (m !! "address") /\
    (truthy (default PNone (m !! "date_joined")) = false \/
     exists s d, default PNone (m !! "date_joined") = PStr s /\
                 date_fromisoformat_str s = inr d).
Proof.
  split.
  - intros [self' H]. destruct (dict_or_not data) as [[m ->]|Hnd].
    + exists m. split; [reflexivity|]. rewrite deserialize_dict in H.
      destruct (m !! "name"); [|discriminate H].
      destruct (m !! "email"); [|discriminate H].
      destruct (m !! "address"); [|discriminate H].
      repeat split; try by eexists.
      destruct (default PNone (m !! "date_joined")) as [|b|n|s|l|m0|d0];
        cbn [truthy] in *; try (by left).
      * destruct b; [discriminate H|by left].
      * destruct (n =? 0); [by left|discriminate H].
      * destruct (String.eqb s ""); [by left|].
        destruct (date_fromisoformat_str s) as [|d] eqn:Hp; [discriminate H|].
        right. by exists s, d.
      * destruct l; [by left|discriminate H].
      * destruct (bool_decide (m0 = ∅)); [by left|discriminate H].
    + destruct (deserialize_non_dict today data self Hnd) as [msg E].
      rewrite E in H. discriminate H.
  - intros (m & -> & [vn Hn] & [ve He] & [va Ha] & Hd).
    rewrite (deserialize_required_present today m self vn ve va Hn He Ha).
    destruct Hd as [->|(s & d & -> & Hp)]; [by eexists|].
    rewrite (parsed_is_truthy s d Hp). cbn [date_fromisoformat]. rewrite Hp.
    by eexists.
Qed.

(** The instance [deserialize] returns, when it returns. *)
Lemma deserialize_returned today data self a :
  (deserialize today data self).1 = inr a ->
  exists m vn ve va d,
    data = PDict m /\
    m !! "name" = Some vn /\ m !! "email" = Some ve /\ m !! "address" = Some va /\
    a = assigned self m vn ve va (Some d) /\
    ((truthy (default PNone (m !! "date_joined")) = false /\ d = today) \/
     (exists s, default PNone (m !! "date_joined") = PStr s /\
                date_fromisoformat_str s = inr d)).
Proof.
  destruct (dict_or_not data) as [[m ->]|Hnd].
  - rewrite deserialize_dict. intros Hr. exists m.
    destruct (m !! "name") as [vn|]; [|discriminate Hr].
    destruct (m !! "email") as [ve|]; [|discriminate Hr].
    destruct (m !! "address") as [va|]; [|discriminate Hr].
    exists vn, ve, va.
    destruct (default PNone (m !! "date_joined")) as [|b|n|s|l|m0|d0];
      cbn [truthy] in *.
    + injection Hr as <-. exists today. repeat split. by left.
    + destruct b; [discriminate Hr|]. injection Hr as <-. exists today.
      repeat split. by left.
    + destruct (n =? 0); [|discriminate Hr]. injection Hr as <-. exists today.
      repeat split. by left.
    + destruct (String.eqb s "") eqn:Es.
      * injection Hr as <-. exists today. repeat split. by left.
      * destruct (date_fromisoformat_str s) as [|d] eqn:Hp; [discriminate Hr|].
        injection Hr as <-. exists d. repeat split. right. by exists s.
    + destruct l; [|discriminate Hr]. injection Hr as <-. exists today.
      repeat split. by left.
    + destruct (bool_decide (m0 = ∅)); [|discriminate Hr].
      injection Hr as <-. exists today. repeat split. by left.
    + discriminate Hr.
  - destruct (deserialize_non_dict today data self Hnd) as [msg ->].
    discriminate.
Qed.

(** X4: a second [deserialize] with the same input leaves no trace of the
    first: whatever the clock showed at either call, the outcome and the
    instance are those of the second call alone, also when the first raised
    half way.  Between the instances the two calls return only
    [date_joined] can differ, and then it is the date of the second call. *)
Theorem deserialize_again today1 today2 data self :
  deserialize today2 data (deserialize today1 data self).2 =
    deserialize today2 data self /\
  forall a1 a2,
    (deserialize today1 data self).1 = inr a1 ->
    (deserialize today2 data a1).1 = inr a2 ->
    id a2 = id a1 /\ name a2 = name a1 /\ email a2 = email a1 /\
    address a2 = address a1 /\ phone_number a2 = phone_number a1 /\
    (date_joined a2 = date_joined a1 \/ date_joined a2 = Some today2).
Proof.
  split.
  - destruct (dict_or_not data) as [[m ->]|Hnd].
    + rewrite !deserialize_dict. repeat case_match; reflexivity.
    + destruct (deserialize_non_dict today1 data self Hnd) as [msg1 ->].
      reflexivity.
  - intros a1 a2 H1 H2.
    apply deserialize_returned in H1
      as (m & vn & ve & va & d1 & -> & Hn & He & Ha & -> & Hd1).
    apply deserialize_returned in H2
      as (m' & vn' & ve' & va' & d2 & [= <-] & Hn' & He' & Ha' & -> & Hd2).
    rewrite Hn in Hn'. rewrite He in He'. rewrite Ha in Ha'.
    injection Hn' as <-. injection He' as <-. injection Ha' as <-.
    unfold assigned. cbn [id name email address phone_number date_joined].
    repeat split.
    destruct Hd2 as [[_ ->]|(s & Hs & Hp)]; [by right|]. left.
    destruct Hd1 as [[Hf _]|(s' & Hs' & Hp')].
    + rewrite Hs, (parsed_is_truthy s d2 Hp) in Hf. discriminate Hf.
    + rewrite Hs in Hs'. injection Hs' as <-. congruence.
Qed.

Lemma deserialize_again_witness :
  exists a1 a2,
    (deserialize nov3 (PDict ann) ann_account).1 = inr a1 /\
    (deserialize (mkdate 2026 11 4) (PDict ann) a1).1 = inr a2 /\
    date_joined a1 = Some nov3 /\ date_joined a2 = Some (mkdate 2026 11 4) /\
    name a2 = name a1.
Proof.
  assert (Hrun : exists a1 a2,
    (deserialize nov3 (PDict ann) ann_account).1 = inr a1 /\
    (deserialize (mkdate 2026 11 4) (PDict ann) a1).1 = inr a2 /\
    date_joined a1 = Some nov3 /\ date_joined a2 = Some (mkdate 2026 11 4)).
  { eexists _, _. split; [vm_compute; reflexivity|].
    split; [vm_compute; reflexivity|]. split; reflexivity. }
  destruct Hrun as (a1 & a2 & H1 & H2 & Hd1 & Hd2). exists a1, a2.
  split; [exact H1|]. split; [exact H2|]. split; [exact Hd1|].
  split; [exact Hd2|].
  destruct (deserialize_again nov3 (mkdate 2026 11 4) (PDict ann) ann_account)
    as [_ Hd].
  destruct (Hd a1 a2 H1 H2) as (_ & Hn & _). exact Hn.
Defined.

(** X5: when [deserialize] returns, the instance is decided by the input,
    the clock and the [id] it had: every other field is overwritten, a
    [phone_number] the mapping lacks being reset to [None]. *)
Theorem deserialize_overwrites today data self1 self2 a :
  id self1 = id self2 ->
  (deserialize today data self1).1 = inr a ->
  deserialize today data self2 = (inr a, a) /\
  forall m, data = PDict m ->
    phone_number a = default PNone (m !! "phone_number").
Proof.
  intros Hid. destruct (dict_or_not data) as [[m ->]|Hnd].
  - rewrite !deserialize_dict. unfold assigned. rewrite Hid.
    repeat case_match; cbn [fst]; intros [= <-];
      (split; [reflexivity|by intros ? [= <-]]).
  - destruct (deserialize_non_dict today data self1 Hnd) as [msg ->].
    discriminate.
Qed.

Lemma deserialize_overwrites_witness :
  exists a,
    (deserialize nov3 (PDict ann) ann_account).1 = inr a /\
    deserialize nov3 (PDict ann) Account_new = (inr a, a) /\
    phone_number ann_account = PStr "555-0100" /\
    phone_number a = PNone.
Proof.
  eexists. split; [vm_compute; reflexivity|].
  destruct (deserialize_overwrites nov3 (PDict ann) ann_account Account_new _
              eq_refl eq_refl) as [H1 H2].
  split; [exact H1|]. split; [reflexivity|]. exact (H2 ann eq_refl).
Defined.

(** ** serialize and deserialize together *)

Lemma isoformat_truthy d : truthy (PStr (isoformat d)) = true.
Proof. reflexivity. Qed.

(** X6: [deserialize] reads back what [serialize] wrote.  Given the
    mapping of an instance whose [date_joined] is a calendar date or unset,
    it returns, and the instance it fills has the same [name], [email],
    [address], [phone_number] and [date_joined] (the clock's date if it was
    unset); the [id] entry of the mapping is not read. *)
Theorem serialize_deserialize today a self :
  date_joined_valid a = true ->
  let a' := mkAccount (id self) (name a) (email a) (address a)
                      (phone_number a)
                      (Some (default today (date_joined a))) in
  deserialize today (PDict (serialize a)) self = (inr a', a').
Proof.
  intros Hv a'. subst a'.
  destruct (serialize_lookup a) as (_ & Hn & He & Ha & Hp & Hd).
  rewrite (deserialize_required_present today (serialize a) self _ _ _ Hn He Ha).
  unfold assigned. rewrite Hp, Hd. cbn [default from_option Datatypes.id].
  unfold date_joined_valid in Hv.
  destruct (date_joined a) as [d|]; [|reflexivity].
  rewrite isoformat_truthy. cbn [date_fromisoformat].
  by rewrite (fromisoformat_isoformat d Hv).
Qed.

Lemma serialize_deserialize_witness :
  deserialize nov3 (PDict (serialize (account_of_row (bob_row 2)))) Account_new =
    (inr (mkAccount None (PStr "Bob") (PStr "bob@example.com")
            (PStr "2 High St") (PStr "555-0199") (Some nov3)),
     mkAccount None (PStr "Bob") (PStr "bob@example.com")
       (PStr "2 High St") (PStr "555-0199") (Some nov3)).
Proof.
  apply (serialize_deserialize nov3 (account_of_row (bob_row 2)) Account_new).
  reflexivity.
Defined.

Lemma Some_PStr_inj s1 s2 : Some (PStr s1) = Some (PStr s2) -> s1 = s2.
Proof. by intros [= ->]. Qed.

(** X7: [serialize] loses nothing: two instances holding calendar dates
    that serialize to the same mapping are the same in every field. *)
Theorem serialize_injective a b :
  date_joined_valid a = true -> date_joined_valid b = true ->
  serialize a = serialize b -> a = b.
Proof.
  intros Hva Hvb Heq.
  destruct (serialize_lookup a) as (Hi & Hn & He & Ha & Hp & Hd).
  destruct (serialize_lookup b) as (Hi' & Hn' & He' & Ha' & Hp' & Hd').
  rewrite Heq in Hi, Hn, He, Ha, Hp, Hd.
  rewrite Hi' in Hi. rewrite Hn' in Hn. rewrite He' in He.
  rewrite Ha' in Ha. rewrite Hp' in Hp. rewrite Hd' in Hd.
  destruct a as [ia na ea aa pa da], b as [ib nb eb ab pb db].
  cbn [id name email address phone_number date_joined] in *.
  unfold date_joined_valid in Hva, Hvb. cbn [date_joined] in Hva, Hvb.
  injection Hn as ->. injection He as ->. injection Ha as ->. injection Hp as ->.
  assert (ia = ib) as ->.
  { destruct ia, ib; try discriminate; congruence. }
  assert (da = db) as ->; [|reflexivity].
  destruct da as [d1|], db as [d2|]; try discriminate; [|reflexivity].
  apply Some_PStr_inj in Hd.
  pose proof (fromisoformat_isoformat d1 Hva) as Hp1.
  pose proof (fromisoformat_isoformat d2 Hvb) as Hp2.
  congruence.
Qed.

Lemma serialize_injective_witness :
  account_of_row (ann_row 1) =
    mkAccount (Some 1) (PStr "Ann") (PStr "ann@example.com") (PStr "1 Main St")
              PNone (Some nov3).
Proof.
  apply (serialize_injective (account_of_row (ann_row 1))
           (mkAccount (Some 1) (PStr "Ann") (PStr "ann@example.com")
              (PStr "1 Main St") PNone (Some nov3))); reflexivity.
Defined.

(** X8: with the clock on a calendar date, an instance [deserialize] has
    filled always holds a [date_joined], and it is a calendar date: what
    [serialize] then prints parses back. *)
Theorem deserialize_stores_valid_date today data self a :
  valid_date today = true ->
  (deserialize today data self).1 = inr a ->
  exists d, date_joined a = Some d /\ valid_date d = true /\
            date_fromisoformat_str (isoformat d) = inr d.
Proof.
  intros Hv. destruct (dict_or_not data) as [[m ->]|Hnd].
  - rewrite deserialize_dict.
    assert (forall d, valid_date d = true ->
              valid_date d = true /\ date_fromisoformat_str (isoformat d) = inr d)
      as Hok by (intros d Hd; split; [done|by apply fromisoformat_isoformat]).
    repeat case_match; cbn [fst]; intros [= <-]; cbn [assigned date_joined];
      eexists; (split; [reflexivity|]); apply Hok;
      first [exact Hv | by eapply fromisoformat_valid].
  - destruct (deserialize_non_dict today data self Hnd) as [msg ->].
    discriminate.
Qed.

Lemma deserialize_stores_valid_date_witness :
  exists d,
    date_joined (mkAccount None (PStr "Ann") (PStr "ann@example.com")
                   (PStr "1 Main St") PNone (Some (mkdate 2024 2 29))) = Some d /\
    valid_date d = true /\
    date_fromisoformat_str (isoformat d) = inr d.
Proof.
  apply (deserialize_stores_valid_date nov3
           (PDict (ann_joined (PStr "2024-02-29"))) Account_new);
    vm_compute; reflexivity.
Defined.



(** ** The lifecycle beside the other records *)

Lemma find_app_other j rows r :
  row_id r <> j ->
  List.find (fun r' => row_id r' =? j) (rows ++ [r]) =
    List.find (fun r' => row_id r' =? j) rows.
Proof.
  intros Hr. induction rows as [|r0 rows IH]; cbn.
  - by rewrite (proj2 (Z.eqb_neq _ _) Hr).
  - by destruct (row_id r0 =? j).
Qed.

Lemma find_filter_other i j rows :
  j <> i ->
  List.find (fun r => row_id r =? j)
            (List.filter (fun r => negb (row_id r =? i)) rows) =
    List.find (fun r => row_id r =? j) rows.
Proof.
  intros Hj. induction rows as [|r0 rows IH]; cbn; [done|].
  destruct (Z.eqb_spec (row_id r0) i) as [->|Hne]; cbn.
  - by rewrite (proj2 (Z.eqb_neq _ _) (not_eq_sym Hj)).
  - by destruct (row_id r0 =? j).
Qed.


Lemma filter_absent_key i rows :
  has_key i rows = false ->
  List.filter (fun r => negb (row_id r =? i)) rows = rows.
Proof.
  unfold has_key. induction rows as [|r0 rows IH]; cbn; [done|].
  intros [H0 Hk]%orb_false_iff. rewrite H0. cbn. by rewrite IH.
Qed.

Lemma delete_one_row i rows :
  NoDup (map row_id rows) -> has_key i rows = true ->
  length rows = S (length (List.filter (fun r => negb (row_id r =? i)) rows)).
Proof.
  induction rows as [|r0 rows IH]; cbn; [discriminate|].
  intros [Hnin Hnd]%NoDup_cons Hk.
  destruct (Z.eqb_spec (row_id r0) i) as [E|Hne]; cbn.
  - rewrite filter_absent_key; [done|]. apply has_key_false.
    rewrite <- E. intros Hin. apply Hnin. by apply list_elem_of_In.
  - f_equal. by apply IH.
Qed.

Lemma NoDup_filter_keys (p : Row -> bool) rows :
  NoDup (map row_id rows) -> NoDup (map row_id (List.filter p rows)).
Proof.
  induction rows as [|r rows IH]; cbn; [done|].
  intros [Hnin Hnd]%NoDup_cons. destruct (p r); cbn; [|by apply IH].
  apply NoDup_cons. split; [|by apply IH].
  intros Hin. apply Hnin. apply list_elem_of_In in Hin. apply list_elem_of_In.
  apply in_map_iff in Hin as (r' & Hr' & Hin). apply filter_In in Hin as [Hin _].
  apply in_map_iff. by exists r'.
Qed.

Lemma NoDup_perm_keys rows rows' :
  Permutation rows' rows -> NoDup (map row_id rows) -> NoDup (map row_id rows').
Proof.
  intros Hp Hnd. by rewrite (Permutation_map row_id Hp).
Qed.

Lemma NoDup_app_key rows r :
  NoDup (map row_id rows) -> has_key (row_id r) rows = false ->
  NoDup (map row_id (rows ++ [r])).
Proof.
  intros Hnd Hk. rewrite map_app. cbn [map]. apply NoDup_app.
  split; [done|]. split; [|apply NoDup_singleton].
  intros pk Hin ->%list_elem_of_singleton.
  apply has_key_false in Hk. apply Hk. by apply list_elem_of_In.
Qed.

Lemma NoDup_update_key k r rows :
  NoDup (map row_id rows) ->
  row_id r = k \/ has_key (row_id r) rows = false ->
  NoDup (map row_id (map (fun r' => if row_id r' =? k then r else r') rows)).
Proof.
  intros Hnd Hr. induction rows as [|r0 rows IH]; cbn; [constructor|].
  cbn in Hnd. apply NoDup_cons in Hnd as [Hnin Hnd].
  assert (Hr' : row_id r = k \/ has_key (row_id r) rows = false).
  { destruct Hr as [|Hk]; [by left|right].
    cbn in Hk. by apply orb_false_iff in Hk as [_ Hk]. }
  apply NoDup_cons. split; [|by apply IH].
  intros Hin. apply list_elem_of_In, in_map_iff in Hin as (r1 & E1 & Hin1).
  apply in_map_iff in Hin1 as (r2 & <- & Hin2).
  destruct (Z.eqb_spec (row_id r0) k) as [E0|N0];
    destruct (Z.eqb_spec (row_id r2) k) as [E2|N2].
  - destruct Hnin. apply list_elem_of_In, in_map_iff. exists r2.
    split; [congruence|done].
  - destruct Hr as [Hr|Hk].
    + destruct Hnin. apply list_elem_of_In, in_map_iff. exists r2.
      split; [congruence|done].
    + cbn in Hk. apply orb_false_iff in Hk as [_ Hk].
      apply has_key_false in Hk. destruct Hk. apply in_map_iff. by exists r2.
  - destruct Hr as [Hr|Hk].
    + congruence.
    + cbn in Hk. apply orb_false_iff in Hk as [Hk _].
      apply Z.eqb_neq in Hk. congruence.
  - destruct Hnin. apply list_elem_of_In, in_map_iff. by exists r2.
Qed.

Lemma NoDup_ids rows :
  NoDup (map row_id rows) -> NoDup (map id (map account_of_row rows)).
Proof.
  induction rows as [|r rows IH]; cbn; [intros; constructor|].
  intros [Hnin Hnd]%NoDup_cons. apply NoDup_cons. split; [|by apply IH].
  intros Hin. apply Hnin. apply list_elem_of_In in Hin. apply list_elem_of_In.
  apply in_map_iff in Hin as (a & Ha & Hin).
  apply in_map_iff in Hin as (r' & <- & Hin). cbn in Ha.
  apply in_map_iff. exists r'. split; [congruence|done].
Qed.

Lemma Permutation_filter_rows (p : Row -> bool) rows rows' :
  Permutation rows' rows -> Permutation (List.filter p rows') (List.filter p rows).
Proof.
  induction 1 as [|x l l' _ IH|x y l|l l' l'' _ IH1 _ IH2]; cbn.
  - constructor.
  - destruct (p x); [by constructor|done].
  - destruct (p x), (p y); try reflexivity. constructor.
  - by etransitivity.
Qed.

Lemma date_eqb_eq d1 d2 : date_eqb d1 d2 = true -> d1 = d2.
Proof.
  destruct d1, d2. unfold date_eqb. cbn.
  rewrite !andb_true_iff, !Z.eqb_eq. by intros [[-> ->] ->].
Qed.

Lemma same_text_eq v stored :
  same_text v stored = true ->
  v = match stored with Some s => PStr s | None => PNone end.
Proof.
  destruct v, stored; cbn; try done. by intros ->%String.eqb_eq.
Qed.

Lemma unchanged_eq a r : unchanged a r = true -> a = account_of_row r.
Proof.
  unfold unchanged, account_of_row. destruct a as [i n e ad ph dj]. cbn.
  destruct i as [i|]; [|done]. destruct dj as [d|]; [|done].
  rewrite !andb_true_iff.
  intros [[[[[Hi Hn] He] Ha] Hp] Hd].
  apply Z.eqb_eq in Hi. apply same_text_eq in Hn, He, Ha, Hp.
  apply date_eqb_eq in Hd. by subst.
Qed.

Section Beside.

Context `{Database}.

(** The flush of a persistent instance, when it returns: either nothing
    differed from the row and nothing is written, or the row has become
    what the database made of the changed attributes, under a key that is
    its own or was free. *)
Lemma flush_update_effect k a w self' w' :
  flush_update k a w = inr (self', w') ->
  exists stored r,
    List.find (fun r => row_id r =? k) (table w) = Some stored /\
    self' = instance_of_row r /\
    id a = Some (row_id r) /\ date_joined a = Some (row_date_joined r) /\
    bind_changed "name" 64 (Some (row_name stored)) (name a)
      = inr (Some (row_name r)) /\
    bind_changed "email" 64 (Some (row_email stored)) (email a)
      = inr (Some (row_email r)) /\
    bind_changed "address" 256 (Some (row_address stored)) (address a)
      = inr (Some (row_address r)) /\
    bind_changed "phone_number" 32 (row_phone_number stored) (phone_number a)
      = inr (row_phone_number r) /\
    sequence w' = sequence w /\
    ((r = stored /\ table w' = table w) \/
     ((row_id r = k \/ has_key (row_id r) (table w) = false) /\
      table w' = heap_order (map (fun r' => if row_id r' =? k then r else r')
                                 (table w)))).
Proof.
  unfold flush_update. intros H'.
  destruct (List.find _ (table w)) as [stored|] eqn:Hfind; [|discriminate].
  exists stored. destruct (unchanged a stored) eqn:Hun.
  - injection H' as <- <-. exists stored. pose proof (unchanged_eq _ _ Hun) as ->.
    unfold bind_changed, account_of_row. cbn.
    rewrite !String.eqb_refl. repeat split; try done.
    + by destruct (row_phone_number stored); cbn; rewrite ?String.eqb_refl.
    + by left.
  - apply DB_bind_inr in H' as (n & w1 & Hn & H'). apply db_eval_inr in Hn as [Hn ->].
    apply DB_bind_inr in H' as (e & w1 & He & H'). apply db_eval_inr in He as [He ->].
    apply DB_bind_inr in H' as (ad & w1 & Ha & H'). apply db_eval_inr in Ha as [Ha ->].
    apply DB_bind_inr in H' as (ph & w1 & Hp & H'). apply db_eval_inr in Hp as [Hp ->].
    apply DB_bind_inr in H' as (pk & w1 & Hk & H'). apply db_eval_inr in Hk as [Hk ->].
    apply DB_bind_inr in H' as (n' & w1 & Hn' & H'). apply db_eval_inr in Hn' as [Hn' ->].
    apply DB_bind_inr in H' as (e' & w1 & He' & H'). apply db_eval_inr in He' as [He' ->].
    apply DB_bind_inr in H' as (ad' & w1 & Ha' & H'). apply db_eval_inr in Ha' as [Ha' ->].
    apply DB_bind_inr in H' as (dj & w1 & Hd & H'). apply db_eval_inr in Hd as [Hd ->].
    apply DB_bind_inr in H' as ([] & w1 & Hu & H'). injection H' as <- <-.
    apply not_null_inr in Hn' as ->, He' as ->, Ha' as ->, Hk, Hd.
    unfold update_row in Hu. cbn [row_id] in Hu.
    destruct (negb (pk =? k) && has_key pk (table w)) eqn:Hfree; [discriminate|].
    injection Hu as <-.
    exists (mkRow pk n' e' ad' ph dj). cbn [row_id row_name row_email row_address
      row_phone_number row_date_joined table sequence].
    repeat split; try done. right. split; [|done].
    apply andb_false_iff in Hfree as [Hfree|Hfree]; [left|by right].
    by apply negb_false_iff, Z.eqb_eq in Hfree.
Qed.

Lemma update_effect self w self' w' k :
  sa_state self = Persistent k ->
  PersistentBase.update self w = inr (self', w') ->
  flush_update k (attrs self)
    (mkWorld (table w) (sequence w) (clock w)
       (log w ++ [mkLog "Updating %s" [repr (attrs self)]])) = inr (self', w').
Proof.
  unfold PersistentBase.update, session_dirty. intros -> H'.
  apply DB_bind_inr in H' as ([] & w0 & H0 & H'). by apply logger_info_inr in H0 as ->.
Qed.

Lemma create_persistent_effect self w self' w' k :
  sa_state self = Persistent k ->
  PersistentBase.create self w = inr (self', w') ->
  flush_update k (attrs self)
    (mkWorld (table w) (sequence w) (clock w)
       (log w ++ [mkLog "Creating %s" [repr (attrs self)]])) = inr (self', w').
Proof.
  unfold PersistentBase.create, session_add, session_dirty. intros Hst H'.
  rewrite Hst in H'.
  apply DB_bind_inr in H' as ([] & w0 & H0 & H'). apply logger_info_inr in H0 as ->.
  apply DB_bind_inr in H' as (u & w1 & H1 & H'). by injection H1 as <- <-.
Qed.

Lemma flush_update_keys k a w self' w' :
  keys_unique w -> flush_update k a w = inr (self', w') -> keys_unique w'.
Proof.
  unfold keys_unique. intros Hu H'.
  apply flush_update_effect in H'
    as (stored & r & _ & _ & _ & _ & _ & _ & _ & _ & _ & [[_ ->]|[Hfree ->]]);
    [done|].
  apply (NoDup_perm_keys _ _ (heap_order_perm _)). by apply NoDup_update_key.
Qed.

(** Every call keeps the primary keys distinct. *)
Lemma call_keys_unique w w' : call w w' -> keys_unique w -> keys_unique w'.
Proof.
  intros Hcall Hu. destruct Hcall as
    [self self' w w' Hc|self self' w w' Hc|self self' w w' Hc
    |records w w' Hc|by_id found w w' Hc|n found w w' Hc].
  - destruct (sa_state self) as [|k|k] eqn:Hst.
    + apply create_effect in Hc as (r & _ & _ & _ & _ & _ & _ & Hk & _ & ->);
        [|done].
      unfold keys_unique in *. cbn [table].
      apply (NoDup_perm_keys _ _ (heap_order_perm _)). by apply NoDup_app_key.
    + apply (create_persistent_effect _ _ _ _ k Hst) in Hc.
      by apply flush_update_keys in Hc.
    + unfold PersistentBase.create, session_add in Hc. rewrite Hst in Hc.
      discriminate Hc.
  - destruct (sa_state self) as [|k|k] eqn:Hst.
    + unfold PersistentBase.update, session_dirty in Hc. rewrite Hst in Hc.
      by injection Hc as _ <-.
    + apply (update_effect _ _ _ _ k Hst) in Hc.
      by apply flush_update_keys in Hc.
    + unfold PersistentBase.update, session_dirty in Hc. rewrite Hst in Hc.
      by injection Hc as _ <-.
  - destruct (sa_state self) as [|k|k] eqn:Hst.
    + unfold PersistentBase.delete, session_delete in Hc. rewrite Hst in Hc.
      discriminate Hc.
    + rewrite (delete_effect self w k) in Hc by auto. injection Hc as _ <-.
      unfold keys_unique in *. cbn [table].
      apply (NoDup_perm_keys _ _ (heap_order_perm _)). by apply NoDup_filter_keys.
    + rewrite (delete_effect self w k) in Hc by auto. injection Hc as _ <-.
      unfold keys_unique in *. cbn [table].
      apply (NoDup_perm_keys _ _ (heap_order_perm _)). by apply NoDup_filter_keys.
  - unfold_db. injection Hc as _ <-. exact Hu.
  - unfold_db. injection Hc as _ <-. exact Hu.
  - unfold_db. injection Hc as _ <-. exact Hu.
Qed.

(** X12: whatever calls the service has made since the start, on whatever
    instances, no two rows share a primary key: no two records of [all]
    have the same id. *)
Theorem keys_stay_unique now w :
  rtc call (World_init now) w ->
  keys_unique w /\
  exists records,
    returned (PersistentBase.all w) = Some records /\ NoDup (map id records).
Proof.
  intros Hrun.
  assert (Hu : keys_unique w).
  { assert (Hinit : keys_unique (World_init now)) by constructor.
    induction Hrun as [|w1 w2 w3 Hstep _ IH]; [exact Hinit|].
    apply IH. by apply (call_keys_unique w1 w2). }
  split; [exact Hu|]. eexists. split; [reflexivity|].
  by apply NoDup_ids.
Qed.

End Beside.

Lemma keys_stay_unique_witness :
  exists w,
    rtc (@call sample_database) (World_init nov3) w /\ table w <> [] /\
    keys_unique w /\
    exists records,
      returned (PersistentBase.all w) = Some records /\ NoDup (map id records).
Proof.
  assert (Hrun : exists w,
    rtc (@call sample_database) (World_init nov3) w /\ table w <> []).
  { eexists. split.
    - eapply rtc_l; [|apply rtc_refl].
      eapply (@call_create sample_database (transient five_account)).
      vm_compute. reflexivity.
    - discriminate. }
  destruct Hrun as (w & Hrun & Hne). exists w.
  split; [exact Hrun|]. split; [exact Hne|].
  apply (@keys_stay_unique sample_database nov3 w Hrun).
Defined.

Section Records.

Context `{Database}.

(** X9: [create] of a transient instance adds one record and touches no
    other: [all] afterwards returns the records from before and the new
    one, in the order the database chooses, and [find] on any other id
    returns what it returned before. *)
Theorem create_adds_one self w self' w' :
  sa_state self = Transient -> keys_unique w ->
  PersistentBase.create self w = inr (self', w') ->
  (exists before after,
     returned (PersistentBase.all w) = Some before /\
     returned (PersistentBase.all w') = Some after /\
     Permutation after (before ++ [attrs self'])) /\
  forall j, id (attrs self') <> Some j ->
    returned (PersistentBase.find j w') = returned (PersistentBase.find j w).
Proof.
  intros Hst Hu Hc. apply create_effect in Hc
    as (r & _ & _ & _ & _ & _ & _ & Hk & -> & ->); [|done].
  split.
  - eexists _, _. split; [reflexivity|]. split; [reflexivity|]. cbn [table].
    rewrite (heap_order_perm (table w ++ [r])), map_app. reflexivity.
  - intros j Hj. unfold_db. cbn [returned table].
    rewrite (find_perm j (table w ++ [r])).
    + rewrite find_app_other; [done|]. cbn in Hj. congruence.
    + by apply NoDup_app_key.
    + apply heap_order_perm.
Qed.

(** X10: [find_by_name] after the [create] of a transient instance: for
    the name the new record is stored under, the result is the one from
    before and that record; for any other name it is the one from before
    (in the order the database chooses). *)
Theorem create_then_find_by_name self w self' w' n :
  sa_state self = Transient ->
  PersistentBase.create self w = inr (self', w') ->
  exists before after,
    returned (find_by_name n w) = Some before /\
    returned (find_by_name n w') = Some after /\
    (name (attrs self') = PStr n -> Permutation after (before ++ [attrs self'])) /\
    (name (attrs self') <> PStr n -> Permutation after before).
Proof.
  intros Hst Hc. apply create_effect in Hc
    as (r & _ & _ & _ & _ & _ & _ & _ & -> & ->); [|done].
  eexists _, _. split; [reflexivity|]. split; [reflexivity|]. cbn [table].
  rewrite (Permutation_filter_rows _ _ _ (heap_order_perm (table w ++ [r]))).
  rewrite List.filter_app. cbn [List.filter instance_of_row attrs account_of_row name].
  split.
  - intros [= ->]. rewrite String.eqb_refl. by rewrite map_app.
  - intros Hname. destruct (String.eqb_spec (row_name r) n) as [E|_].
    + destruct Hname. by rewrite E.
    + by rewrite app_nil_r.
Qed.

(** X14: with distinct keys in the table, [delete] of a persisted instance
    removes exactly one record: [all] returns one record less, namely the
    records from before whose id is not the instance's, and [find] on any
    other id returns what it returned before. *)
Theorem delete_removes_one self w k :
  keys_unique w -> persisted self w = true -> sa_state self = Persistent k ->
  exists self' w' before after,
    PersistentBase.delete self w = inr (self', w') /\
    returned (PersistentBase.all w) = Some before /\
    returned (PersistentBase.all w') = Some after /\
    length before = S (length after) /\
    (forall a, In a after <-> In a before /\ id a <> Some k) /\
    forall j, j <> k ->
      returned (PersistentBase.find j w') = returned (PersistentBase.find j w).
Proof.
  intros Hu Hp Hst. unfold persisted in Hp. rewrite Hst in Hp.
  eexists _, _, _, _. split; [apply delete_effect; by left|].
  split; [reflexivity|]. split; [reflexivity|]. cbn [table].
  pose proof (heap_order_perm
                (List.filter (fun r => negb (row_id r =? k)) (table w))) as Hperm.
  split; [|split].
  - rewrite !length_map, (Permutation_length Hperm). by apply delete_one_row.
  - intros a. rewrite !in_map_iff. split.
    + intros (r & <- & Hr%(Permutation_in _ Hperm)).
      apply filter_In in Hr as [Hr Hne].
      apply negb_true_iff, Z.eqb_neq in Hne.
      split; [by exists r|]. cbn. congruence.
    + intros [(r & <- & Hr) Hne]. exists r. split; [done|].
      apply (Permutation_in _ (Permutation_sym Hperm)).
      apply filter_In. split; [done|].
      apply negb_true_iff, Z.eqb_neq. cbn in Hne. congruence.
  - intros j Hj. unfold_db. cbn [returned table].
    rewrite (find_perm j _ _ (NoDup_filter_keys _ _ Hu) Hperm).
    by rewrite find_filter_other.
Qed.


End Records.

Lemma create_adds_one_witness :
  exists self' w',
    @PersistentBase.create sample_database (transient five_account) three_rows
      = inr (self', w') /\
    (exists before after,
       returned (PersistentBase.all three_rows) = Some before /\
       returned (PersistentBase.all w') = Some after /\
       Permutation after (before ++ [attrs self'])) /\
    forall j, id (attrs self') <> Some j ->
      returned (PersistentBase.find j w')
      = returned (PersistentBase.find j three_rows).
Proof.
  eexists _, _. split; [vm_compute; reflexivity|].
  apply (@create_adds_one sample_database (transient five_account) three_rows);
    [reflexivity| |vm_compute; reflexivity].
  unfold keys_unique. apply (bool_decide_unpack _). vm_compute. exact I.
Defined.

Lemma create_then_find_by_name_witness :
  exists self' w' before after,
    @PersistentBase.create sample_database (transient five_account) three_rows
      = inr (self', w') /\
    name (attrs self') = PStr "5" /\
    returned (find_by_name "5" three_rows) = Some before /\
    returned (find_by_name "5" w') = Some after /\
    (name (attrs self') = PStr "5" ->
       Permutation after (before ++ [attrs self'])) /\
    (name (attrs self') <> PStr "5" -> Permutation after before).
Proof.
  assert (Hrun : exists self' w',
    @PersistentBase.create sample_database (transient five_account) three_rows
      = inr (self', w') /\ name (attrs self') = PStr "5").
  { eexists _, _. split; vm_compute; reflexivity. }
  destruct Hrun as (self' & w' & Hc & Hname).
  destruct (@create_then_find_by_name sample_database
              (transient five_account) three_rows self' w' "5" eq_refl Hc)
    as (before & after & H).
  exists self', w', before, after. split; [exact Hc|]. split; [exact Hname|].
  exact H.
Defined.

Lemma delete_removes_one_witness :
  exists self' w' before after,
    @PersistentBase.delete sample_database (instance_of_row (bob_row 2)) three_rows
      = inr (self', w') /\
    returned (PersistentBase.all three_rows) = Some before /\
    returned (PersistentBase.all w') = Some after /\
    length before = S (length after) /\
    (forall a, In a after <-> In a before /\ id a <> Some 2) /\
    forall j, j <> 2 ->
      returned (PersistentBase.find j w')
      = returned (PersistentBase.find j three_rows).
Proof.
  apply (@delete_removes_one sample_database (instance_of_row (bob_row 2))
           three_rows 2); [|reflexivity|reflexivity].
  unfold keys_unique. apply (bool_decide_unpack _). vm_compute. exact I.
Defined.


(** X15: [find] and [all] agree.  [find] always returns; with distinct
    keys in the table it returns a record exactly when [all] holds that
    record under the id asked for, and nothing when [all] holds no record
    with that id. *)
Theorem find_agrees_with_all w :
  keys_unique w ->
  exists records,
    returned (PersistentBase.all w) = Some records /\
    forall i,
      exists found,
        returned (PersistentBase.find i w) = Some found /\
        (forall a, found = Some a <-> In a records /\ id a = Some i) /\
        (found = None <-> forall a, In a records -> id a <> Some i).
Proof.
  intros Hu. eexists. split; [reflexivity|]. intros i.
  eexists. split; [reflexivity|]. cbn [table].
  unfold keys_unique in Hu.
  induction (table w) as [|r rows IH]; cbn.
  - split; [|done]. intros a. split; [discriminate|]. by intros [[] _].
  - cbn in Hu. apply NoDup_cons in Hu as [Hnin Hu]. specialize (IH Hu).
    destruct IH as [IHsome IHnone].
    destruct (Z.eqb_spec (row_id r) i) as [E|Hne].
    + split.
      * intros a. split.
        -- intros [= <-]. split; [by left|]. cbn. by rewrite E.
        -- intros [[<-|Hin] Ha]; [done|].
           apply in_map_iff in Hin as (r' & <- & Hin). cbn in Ha.
           destruct Hnin. apply list_elem_of_In, in_map_iff.
           exists r'. split; [congruence|done].
      * split; [discriminate|]. intros Hnone.
        destruct (Hnone (account_of_row r)); [by left|]. cbn. by rewrite E.
    + split.
      * intros a. rewrite IHsome. split.
        -- intros [Hin Ha]. split; [by right|done].
        -- intros [[<-|Hin] Ha]; [|done]. cbn in Ha. congruence.
      * rewrite IHnone. split.
        -- intros Hnone a [<-|Hin]; [cbn; congruence|by apply Hnone].
        -- intros Hnone a Hin. apply Hnone. by right.
Qed.

Lemma find_agrees_with_all_witness :
  exists records,
    returned (PersistentBase.all three_rows) = Some records /\
    forall i,
      exists found,
        returned (PersistentBase.find i three_rows) = Some found /\
        (forall a, found = Some a <-> In a records /\ id a = Some i) /\
        (found = None <-> forall a, In a records -> id a <> Some i).
Proof.
  apply find_agrees_with_all.
  unfold keys_unique. apply (bool_decide_unpack _). vm_compute. exact I.
Defined.

